(** * HT16K33: LED-matrix / key-scan driver (src/HT16K33.cpp)

    A shallow embedding of the driver and the properties its specification
    states about it.  The driver keeps an 8-word pixel buffer and three
    orientation flags, and talks to the chip through the Arduino [Wire]
    object.  Integers are modelled as [Z] with every conversion to a
    fixed-width C type written out; the bus is modelled as a log of the
    events the driver issues plus the bytes the peripheral will answer. *)

From Stdlib Require Import ZArith Lia Bool.
From stdpp Require Import base list strings.

Local Open Scope Z_scope.

(** ** Fixed-width integers *)

(** Conversion of a value to [uint8_t] / [uint16_t] (reduction modulo 2^N). *)
Definition to_uint8 (x : Z) : Z := x mod 256.
Definition to_uint16 (x : Z) : Z := x mod 65536.

(** [uint16_t _flip_uint16(uint16_t in)]: one round of the loop body
    [out <<= 1; out |= in & 1; in >>= 1;] on the pair of locals. *)
Definition flip_step (st : Z * Z) : Z * Z :=
  let '(out, in_) := st in
  let out := to_uint16 (Z.shiftl out 1) in
  let out := to_uint16 (Z.lor out (Z.land in_ 1)) in
  let in_ := to_uint16 (Z.shiftr in_ 1) in
  (out, in_).

Definition _flip_uint16 (in_ : Z) : Z :=
  fst (Nat.iter 16 flip_step (0, to_uint16 in_)).

(** ** The header

    Modelled from the spec: [HT16K33.h] is not among the sources.  The spec
    names the command bytes of the register map without giving their values,
    so they are parameters of the development. *)
Class Header := {
  HT16K33_CMD_RAM : Z;
  HT16K33_CMD_KEYS : Z;
  HT16K33_CMD_INTFLAG : Z;
  HT16K33_CMD_SYSTEM : Z;
  HT16K33_CMD_SETUP : Z;
  HT16K33_CMD_ROWINT : Z;
  HT16K33_CMD_DIMMING : Z;
  HT16K33_DISPLAY_ON : Z;
  HT16K33_BLINK_OFF : Z
}.

(** The values of the chip's data sheet, used for concrete runs. *)
Definition datasheet : Header := {|
  HT16K33_CMD_RAM := 0x00;
  HT16K33_CMD_KEYS := 0x40;
  HT16K33_CMD_INTFLAG := 0x60;
  HT16K33_CMD_SYSTEM := 0x20;
  HT16K33_CMD_SETUP := 0x80;
  HT16K33_CMD_ROWINT := 0xA0;
  HT16K33_CMD_DIMMING := 0xE0;
  HT16K33_DISPLAY_ON := 0x01;
  HT16K33_BLINK_OFF := 0x00
|}.

(** Modelled from the spec: class [Sprite16] is declared outside src/.  The
    spec describes it as a row-addressable bitmap of fixed height whose rows
    are 16-bit words; [height] is read as a [uint8_t] where the driver uses
    it, and a row takes part in the driver's arithmetic as it is. *)
Record Sprite16 := mkSprite16 {
  height : Z;
  readRow : Z → Z
}.

(** ** State *)

(** The private members of [class HT16K33]. [_buffer] is the block of words
    the pointer refers to (empty before [init] allocates it). *)
Record HT16K33 := mkHT16K33 {
  _i2c_addr : Z;
  _buffer : list Z;
  _reversed : bool;
  _vFlipped : bool;
  _hFlipped : bool
}.

(** What the driver does on the bus, in the order it does it. *)
Inductive bus_event :=
| WireBegin
| BeginTransmission (addr : Z)
| WriteByte (b : Z)
| EndTransmission
| RequestFrom (addr quantity : Z).

(** The [Wire] object: the log of issued events, the receive buffer filled by
    the last [requestFrom], and the bytes the peripheral has yet to answer. *)
Record TwoWire := mkTwoWire {
  bus : list bus_event;
  rxBuffer : list Z;
  peripheral : list Z
}.

Record World := mkWorld {
  chip : HT16K33;
  wire : TwoWire
}.

(** ** A state monad with failure

    [None] stands for undefined behaviour: an array access out of bounds. *)
Definition M (A : Type) : Type := World → option (A * World).

Definition ret {A} (a : A) : M A := λ w, Some (a, w).

Definition bind {A B} (m : M A) (k : A → M B) : M B :=
  λ w, match m w with
       | Some (a, w') => k a w'
       | None => None
       end.

Notation "x <- c1 ;; c2" := (bind c1 (λ x, c2))
  (at level 100, c1 at next level, right associativity).
Notation "c1 ;; c2" := (bind c1 (λ _, c2))
  (at level 100, right associativity).

Definition gets {A} (f : HT16K33 → A) : M A := λ w, Some (f (chip w), w).

Definition modify (f : HT16K33 → HT16K33) : M unit :=
  λ w, Some (tt, mkWorld (f (chip w)) (wire w)).

Definition lift {A} (o : option A) : M A :=
  λ w, match o with Some a => Some (a, w) | None => None end.

(** [a[i]] and [a[i] = v] on an array of [uint16_t]. *)
Definition array_load (a : list Z) (i : Z) : option Z :=
  if i <? 0 then None else a !! Z.to_nat i.

Definition array_store (a : list Z) (i v : Z) : option (list Z) :=
  if (0 <=? i) && (i <? Z.of_nat (length a))
  then Some (<[Z.to_nat i := to_uint16 v]> a)
  else None.

Definition set_buffer (b : list Z) (c : HT16K33) : HT16K33 :=
  mkHT16K33 (_i2c_addr c) b (_reversed c) (_vFlipped c) (_hFlipped c).

Definition read_buffer (i : Z) : M Z :=
  b <- gets _buffer ;; lift (array_load b i).

Definition write_buffer (i v : Z) : M unit :=
  b <- gets _buffer ;;
  b' <- lift (array_store b i v) ;;
  modify (set_buffer b').

(** [for (uint8_t i = lo; i < hi; i++) body], threading an accumulator. *)
Fixpoint for_fold {A} (l : list Z) (body : Z → A → M A) (a : A) : M A :=
  match l with
  | [] => ret a
  | i :: l' => a' <- body i a ;; for_fold l' body a'
  end.

Definition for_ (lo hi : Z) (body : Z → M unit) : M unit :=
  for_fold (seqZ lo (hi - lo)) (λ i _, body i) tt.

(** ** The [Wire] library, as far as the driver uses it *)

Definition emit (e : bus_event) : M unit :=
  λ w, Some (tt, mkWorld (chip w)
                   (mkTwoWire (bus (wire w) ++ [e]) (rxBuffer (wire w))
                              (peripheral (wire w)))).

Definition Wire_begin : M unit := emit WireBegin.
Definition Wire_beginTransmission (addr : Z) : M unit :=
  emit (BeginTransmission (to_uint8 addr)).
Definition Wire_write (v : Z) : M unit := emit (WriteByte (to_uint8 v)).
Definition Wire_endTransmission : M unit := emit EndTransmission.

(** [requestFrom] replaces the receive buffer with the next [quantity] bytes
    of the peripheral's answer. *)
Definition Wire_requestFrom (addr quantity : Z) : M unit :=
  λ w, let n := Z.to_nat (to_uint8 quantity) in
       Some (tt, mkWorld (chip w)
                   (mkTwoWire
                      (bus (wire w) ++ [RequestFrom (to_uint8 addr) (to_uint8 quantity)])
                      (take n (peripheral (wire w)))
                      (drop n (peripheral (wire w))))).

(** [read] returns the next received byte, or -1 when none is left. *)
Definition Wire_read : M Z :=
  λ w, match rxBuffer (wire w) with
       | [] => Some (-1, w)
       | b :: rx => Some (b, mkWorld (chip w)
                               (mkTwoWire (bus (wire w)) rx (peripheral (wire w))))
       end.

(** ** The driver *)

Section Driver.
Context {hdr : Header}.

Definition resetOrientation : M unit :=
  modify (λ c, mkHT16K33 (_i2c_addr c) (_buffer c) false false false).

Definition reverse : M unit :=
  modify (λ c, mkHT16K33 (_i2c_addr c) (_buffer c)
                 (negb (_reversed c)) (_vFlipped c) (_hFlipped c)).

Definition flipVertical : M unit :=
  modify (λ c, mkHT16K33 (_i2c_addr c) (_buffer c)
                 (_reversed c) (negb (_vFlipped c)) (_hFlipped c)).

Definition flipHorizontal : M unit :=
  modify (λ c, mkHT16K33 (_i2c_addr c) (_buffer c)
                 (_reversed c) (_vFlipped c) (negb (_hFlipped c))).

(** [void getKeyData(uint16_t _key_buffer[])]: the caller's array is passed in
    and the array after the call is returned. *)
Definition getKeyData (_key_buffer : list Z) : M (list Z) :=
  addr <- gets _i2c_addr ;;
  Wire_beginTransmission addr ;;
  Wire_write HT16K33_CMD_KEYS ;;
  Wire_endTransmission ;;
  Wire_requestFrom addr (to_uint8 6) ;;
  for_fold (seqZ 0 2) (λ row _key_buffer,
    lsb <- Wire_read ;;
    let lsb := to_uint16 lsb in
    msb <- Wire_read ;;
    lift (array_store _key_buffer row (Z.lor (Z.shiftl msb 8) lsb)))
    _key_buffer.

(** The command byte is [HT16K33_CMD_ROWINT | (act & row_int) << 1 | row_int]. *)
Definition setRowIntPin (row_int act : bool) : M unit :=
  addr <- gets _i2c_addr ;;
  Wire_beginTransmission addr ;;
  Wire_write (Z.lor (Z.lor HT16K33_CMD_ROWINT
                       (Z.shiftl (Z.land (Z.b2z act) (Z.b2z row_int)) 1))
                (Z.b2z row_int)) ;;
  Wire_endTransmission.

Definition sleep : M unit :=
  addr <- gets _i2c_addr ;;
  Wire_beginTransmission addr ;;
  Wire_write (Z.land HT16K33_CMD_SYSTEM (Z.lnot 1)) ;;
  Wire_endTransmission.

Definition wakeUp : M unit :=
  addr <- gets _i2c_addr ;;
  Wire_beginTransmission addr ;;
  Wire_write (Z.lor HT16K33_CMD_SYSTEM 0x01) ;;
  Wire_endTransmission.

Definition getKeyInterrupt : M bool :=
  addr <- gets _i2c_addr ;;
  Wire_beginTransmission addr ;;
  Wire_write HT16K33_CMD_INTFLAG ;;
  Wire_endTransmission ;;
  Wire_requestFrom addr (to_uint8 1) ;;
  intflags <- Wire_read ;;
  let intflags := to_uint8 intflags in
  ret (0 <? intflags).

Definition setBrightness (brightness : Z) : M unit :=
  let brightness := to_uint8 brightness in
  let brightness := to_uint8 (Z.land brightness 0x0F) in
  addr <- gets _i2c_addr ;;
  Wire_beginTransmission addr ;;
  Wire_write (Z.lor HT16K33_CMD_DIMMING brightness) ;;
  Wire_endTransmission.

Definition setBlink (blink : Z) : M unit :=
  let blink := to_uint8 blink in
  addr <- gets _i2c_addr ;;
  Wire_beginTransmission addr ;;
  Wire_write (Z.lor (Z.lor HT16K33_CMD_SETUP HT16K33_DISPLAY_ON) blink) ;;
  Wire_endTransmission.

Definition clear : M unit :=
  for_ 0 8 (λ i, write_buffer i 0).

(** [_buffer[row] |= 1 << col] or [_buffer[row] &= ~(1 << col)], after the
    three arguments have been masked. *)
Definition setPixel (col row val : Z) : M unit :=
  let col := to_uint8 col in
  let row := to_uint8 row in
  let val := to_uint8 val in
  let col := to_uint8 (Z.land col 0x0F) in
  let row := to_uint8 (Z.land row 0x07) in
  let val := to_uint8 (Z.land val 0x01) in
  if val =? 1 then
    old <- read_buffer row ;;
    write_buffer row (Z.lor old (Z.shiftl 1 col))
  else
    old <- read_buffer row ;;
    write_buffer row (Z.land old (Z.lnot (Z.shiftl 1 col))).

Definition setRow (row value : Z) : M unit :=
  let row := to_uint8 row in
  let value := to_uint16 value in
  let row := to_uint8 (Z.land row 0x07) in
  write_buffer row value.

Definition setColumn (col value : Z) : M unit :=
  let col := to_uint8 col in
  let value := to_uint8 value in
  for_ 0 8 (λ row,
    setPixel col row (Z.b2z (0 <? Z.land value (Z.shiftl 1 row)))).

(** [v << n] for a 16-bit [v] and a [uint8_t] count [n].  C leaves the shift
    undefined once [n] reaches the width of [int]: 16 bits on the AVR boards
    the library is written for, 32 on others.  The model takes the smaller
    width, so that a run it defines is defined on every target; an undefined
    shift is [None], like an access out of bounds. *)
Definition shift_left (v n : Z) : option Z :=
  if n <? 16 then Some (Z.shiftl v n) else None.

(** [_buffer[(row + rowOffset) & 0x07] |= (sprite.readRow(row) << colOffset) & 0xFFFF]
    for every sprite row: the right-hand side is computed, then ORed into
    the row. *)
Definition drawSprite16 (sprite : Sprite16) (colOffset rowOffset : Z) : M unit :=
  let colOffset := to_uint8 colOffset in
  let rowOffset := to_uint8 rowOffset in
  for_ 0 (to_uint8 (height sprite)) (λ row,
    let i := Z.land (row + rowOffset) 0x07 in
    shifted <- lift (shift_left (readRow sprite row) colOffset) ;;
    old <- read_buffer i ;;
    write_buffer i (Z.lor old (Z.land shifted 0xFFFF))).

(** The overload without offsets. *)
Definition drawSprite16_0 (sprite : Sprite16) : M unit :=
  drawSprite16 sprite 0 0.

(** [writeRow]: mirror the row index, read the word, mirror its bits, send
    its two bytes. *)
Definition writeRow (row : Z) : M unit :=
  let row := to_uint8 row in
  vf <- gets _vFlipped ;;
  let row := if vf then to_uint8 (7 - row) else row in
  out <- read_buffer row ;;
  hf <- gets _hFlipped ;;
  let out := if hf then _flip_uint16 out else out in
  rv <- gets _reversed ;;
  if rv then
    Wire_write (Z.shiftr out 8) ;;
    Wire_write (Z.land out 0xFF)
  else
    Wire_write (Z.land out 0xFF) ;;
    Wire_write (Z.shiftr out 8).

Definition write : M unit :=
  addr <- gets _i2c_addr ;;
  Wire_beginTransmission addr ;;
  Wire_write HT16K33_CMD_RAM ;;
  for_ 0 8 writeRow ;;
  Wire_endTransmission.

(** [init]: [calloc(8, sizeof(uint16_t))] is read as yielding eight zero
    words. *)
Definition init (addr : Z) : M unit :=
  let addr := to_uint8 addr in
  resetOrientation ;;
  modify (λ c, mkHT16K33 addr (_buffer c) (_reversed c) (_vFlipped c) (_hFlipped c)) ;;
  modify (set_buffer (replicate 8 0)) ;;
  Wire_begin ;;
  wakeUp ;;
  setBlink HT16K33_BLINK_OFF ;;
  setBrightness 15 ;;
  write.

End Driver.

(** ** The key-scan demo sketch (src/unnamed/part_000)

    The sketch owns the driver object, a 3-word key buffer and the flag its
    interrupt handler sets.  What it does to the host (serial port, delay,
    interrupt registration) is kept as a log. *)

Inductive host_event :=
| SerialBegin (baud : Z)
| Delay (ms : Z)
| AttachInterrupt (pin : Z)
| SerialPrint (text : string)
| SerialPrintInt (n : Z)
| SerialPrintlnBin (v : Z).

Record Sketch := mkSketch {
  matrix : World;
  keybuffer : list Z;
  has_key_data : bool;
  host : list host_event
}.

Definition interruptPin : Z := 2.

Definition host_do (es : list host_event) (s : Sketch) : Sketch :=
  mkSketch (matrix s) (keybuffer s) (has_key_data s) (host s ++ es).

(** Run a driver call on the sketch's [matrix]. *)
Definition on_matrix {A} (m : M A) (s : Sketch) : option (A * Sketch) :=
  match m (matrix s) with
  | Some (a, w) => Some (a, mkSketch w (keybuffer s) (has_key_data s) (host s))
  | None => None
  end.

Section Demo.
Context {hdr : Header}.

Definition setup (s : Sketch) : option Sketch :=
  let s := host_do [SerialBegin 115200] s in
  let s := host_do [Delay 10] s in
  match on_matrix (init 0x70) s with
  | None => None
  | Some (_, s) =>
    match on_matrix wakeUp s with
    | None => None
    | Some (_, s) =>
      match on_matrix (setRowIntPin true true) s with
      | None => None
      | Some (_, s) =>
        let s := host_do [AttachInterrupt interruptPin] s in
        Some (mkSketch (matrix s) (replicate 3 0) (has_key_data s) (host s))
      end
    end
  end.

Definition handle_int (s : Sketch) : Sketch :=
  mkSketch (matrix s) (keybuffer s) true (host s).

(** The body of the reporting loop of [loop], for one [i]. *)
Definition report_row (i : Z) (s : Sketch) : option Sketch :=
  match array_load (keybuffer s) i with
  | None => None
  | Some key =>
    if negb (key =? 0) then
      Some (host_do [SerialPrint "Key has been pressed in row ";
                     SerialPrintInt i;
                     SerialPrint ": ";
                     SerialPrintlnBin key] s)
    else Some s
  end.

Definition loop (s : Sketch) : option Sketch :=
  if has_key_data s then
    let s := mkSketch (matrix s) (keybuffer s) false (host s) in
    match getKeyData (keybuffer s) (matrix s) with
    | None => None
    | Some (keys, w) =>
      let s := mkSketch w keys (has_key_data s) (host s) in
      match report_row 0 s with
      | None => None
      | Some s => report_row 1 s
      end
    end
  else Some s.

End Demo.

(** What [loop] prints for row [i] holding [key]. *)
Definition row_report (i key : Z) : list host_event :=
  if key =? 0 then []
  else [SerialPrint "Key has been pressed in row "; SerialPrintInt i;
        SerialPrint ": "; SerialPrintlnBin key].

(** ** Observations used in the statements *)

(** A value of type [uint16_t]. *)
Definition is_uint16 (x : Z) : Prop := 0 ≤ x < 65536.

(** The state after the driver has issued the events [es] on the bus. *)
Definition transmit (es : list bus_event) (w : World) : World :=
  mkWorld (chip w)
    (mkTwoWire (bus (wire w) ++ es) (rxBuffer (wire w)) (peripheral (wire w))).

(** The state with the pixel buffer replaced by [b]. *)
Definition with_buffer (b : list Z) (w : World) : World :=
  mkWorld (set_buffer b (chip w)) (wire w).

(** Column [col] of buffer row [row], when the row exists. *)
Definition pixel (w : World) (col row : Z) : option bool :=
  (λ word, Z.testbit word col) <$> array_load (_buffer (chip w)) row.

(** The loop invariant of [_flip_uint16] after [n] rounds on the word [x]:
    [in] has lost its [n] low bits and [out] holds them mirrored. *)
Definition flip_inv (x : Z) (n : Z) (st : Z * Z) : Prop :=
  (∀ i, 0 ≤ i → Z.testbit (fst st) i = (i <? n) && Z.testbit x (n - 1 - i)) ∧
  (∀ i, 0 ≤ i → Z.testbit (snd st) i = Z.testbit x (i + n)).

(** Whether one of the sprite rows [0 .. rows-1], shifted left by
    [colOffset] and cut to 16 bits, lights column [c] of the buffer row
    [j] it lands on, [(r + rowOffset) mod 8]. *)
Definition sprite_lights (sprite : Sprite16) (colOffset rowOffset rows c j : Z) : bool :=
  existsb (λ r, ((r + rowOffset) mod 8 =? j) &&
                Z.testbit (Z.land (Z.shiftl (readRow sprite r) colOffset) 0xFFFF) c)
          (seqZ 0 rows).

(** The loop invariant of [drawSprite16] after [k] rounds, started in [w]:
    only the buffer has changed, and each of its bits is the bit it was,
    ORed with what the first [k] sprite rows light. *)
Definition draw_inv (sprite : Sprite16) (colOffset rowOffset : Z) (w : World)
    (k : Z) (w' : World) : Prop :=
  ∃ b', w' = with_buffer b' w ∧
        length b' = 8%nat ∧
        (Forall is_uint16 (_buffer (chip w)) → Forall is_uint16 b') ∧
        ∀ c j, 0 ≤ c < 16 → 0 ≤ j < 8 →
          Z.testbit (b' !!! Z.to_nat j) c =
          Z.testbit (_buffer (chip w) !!! Z.to_nat j) c
          || sprite_lights sprite colOffset rowOffset k c j.

(** An allocated pixel buffer: eight words, each a [uint16_t]. *)
Definition wf_buffer (w : World) : Prop :=
  length (_buffer (chip w)) = 8%nat ∧ Forall is_uint16 (_buffer (chip w)).

(** A buffer operation that ran inside the buffer: it returned, the buffer
    is still allocated, and nothing but the buffer has changed. *)
Definition in_bounds_run (m : M unit) (w : World) : Prop :=
  ∃ b', m w = Some (tt, with_buffer b' w) ∧ wf_buffer (with_buffer b' w).

(** The loop invariant of [setColumn] after rows [0 .. k-1]: in column
    [col] these rows show the bits of [value], everything else is as it
    was in the buffer [b]. *)
Definition column_inv (col value : Z) (b : list Z) (w : World) (k : Z)
    (w' : World) : Prop :=
  ∃ b', w' = with_buffer b' w ∧
        length b' = 8%nat ∧
        (Forall is_uint16 b → Forall is_uint16 b') ∧
        ∀ c r, 0 ≤ c < 16 → 0 ≤ r < 8 →
          Z.testbit (b' !!! Z.to_nat r) c =
          if (c =? col) && (r <? k) then Z.testbit value r
          else Z.testbit (b !!! Z.to_nat r) c.

(** The two bytes [writeRow] puts on the bus for physical row [row] of an
    allocated buffer, in the order it sends them. *)
Definition row_bytes (c : HT16K33) (row : Z) : list Z :=
  let word := _buffer c !!! Z.to_nat (if _vFlipped c then 7 - row else row) in
  let out := if _hFlipped c then _flip_uint16 word else word in
  if _reversed c
  then [to_uint8 (Z.shiftr out 8); to_uint8 (Z.land out 0xFF)]
  else [to_uint8 (Z.land out 0xFF); to_uint8 (Z.shiftr out 8)].

(** The bus log a run ends with. *)
Definition bus_after {A} (r : option (A * World)) : option (list bus_event) :=
  (λ x, bus (wire (snd x))) <$> r.

(** Words read back from a byte stream, low byte first. *)
Fixpoint decode_le (bytes : list Z) : list Z :=
  match bytes with
  | lo :: hi :: rest => (lo + 256 * hi) :: decode_le rest
  | _ => []
  end.

(** A 16-bit word with its two bytes exchanged. *)
Definition swap_bytes (x : Z) : Z := (x mod 256) * 256 + x / 256.

(** * Properties *)

(** ** Fixed-width arithmetic *)

Lemma to_uint16_range x : 0 ≤ to_uint16 x < 65536.
Proof. unfold to_uint16. apply Z.mod_pos_bound. lia. Qed.

Lemma to_uint8_range x : 0 ≤ to_uint8 x < 256.
Proof. unfold to_uint8. apply Z.mod_pos_bound. lia. Qed.

Lemma to_uint16_small x : 0 ≤ x < 65536 → to_uint16 x = x.
Proof. intros. unfold to_uint16. by apply Z.mod_small. Qed.

Lemma to_uint8_small x : 0 ≤ x < 256 → to_uint8 x = x.
Proof. intros. unfold to_uint8. by apply Z.mod_small. Qed.

Lemma to_uint16_testbit x i :
  Z.testbit (to_uint16 x) i = (i <? 16) && Z.testbit x i.
Proof.
  unfold to_uint16. change 65536 with (2 ^ 16).
  apply Z.testbit_mod_pow2. lia.
Qed.

Lemma to_uint8_testbit x i :
  Z.testbit (to_uint8 x) i = (i <? 8) && Z.testbit x i.
Proof.
  unfold to_uint8. change 256 with (2 ^ 8).
  apply Z.testbit_mod_pow2. lia.
Qed.

Lemma uint16_testbit_high x i : 0 ≤ x < 65536 → 16 ≤ i → Z.testbit x i = false.
Proof.
  intros Hx Hi. rewrite <- (to_uint16_small x Hx), to_uint16_testbit.
  destruct (Z.ltb_spec i 16); [lia | done].
Qed.

(** Two words of 16 bits with the same 16 bits are equal. *)
Lemma uint16_bits_eq x y :
  0 ≤ x < 65536 → 0 ≤ y < 65536 →
  (∀ i, 0 ≤ i < 16 → Z.testbit x i = Z.testbit y i) → x = y.
Proof.
  intros Hx Hy Hbits. apply Z.bits_inj'. intros i Hi.
  destruct (Z.lt_ge_cases i 16) as [Hlt | Hge].
  - apply Hbits. lia.
  - by rewrite !uint16_testbit_high.
Qed.

Lemma land_1_testbit x i : 0 ≤ i → Z.testbit (Z.land x 1) i = (i =? 0) && Z.testbit x i.
Proof.
  intros Hi. change 1 with (Z.ones 1) at 1.
  rewrite Z.land_ones by lia. rewrite Z.testbit_mod_pow2 by lia.
  destruct (Z.ltb_spec i 1), (Z.eqb_spec i 0); (done || lia).
Qed.

(** ** Bit reversal *)

Lemma flip_inv_init x : flip_inv x 0 (0, x).
Proof.
  split; intros i Hi; simpl.
  - rewrite Z.bits_0. by destruct (Z.ltb_spec i 0); [lia |].
  - by rewrite Z.add_0_r.
Qed.

Lemma flip_inv_step x n st :
  0 ≤ x < 65536 → 0 ≤ n < 16 →
  flip_inv x n st → flip_inv x (n + 1) (flip_step st).
Proof.
  intros Hx Hn [Hout Hin]. destruct st as [out in_]. simpl in *.
  split; intros i Hi; simpl.
  - rewrite !to_uint16_testbit, Z.lor_spec, to_uint16_testbit, land_1_testbit by done.
    destruct (Z.eqb_spec i 0) as [-> | Hne].
    + rewrite Z.shiftl_spec_low, Hin by lia.
      replace (n + 1 - 1 - 0) with (0 + n) by lia.
      by destruct (Z.ltb_spec 0 (n + 1)); [| lia].
    + rewrite Z.shiftl_spec, Hout by lia.
      replace (n - 1 - (i - 1)) with (n + 1 - 1 - i) by lia.
      rewrite andb_false_l, orb_false_r.
      by destruct (Z.ltb_spec i 16), (Z.ltb_spec (i - 1) n), (Z.ltb_spec i (n + 1));
        try lia.
  - rewrite to_uint16_testbit, Z.shiftr_spec, Hin by lia.
    replace (i + 1 + n) with (i + (n + 1)) by lia.
    destruct (Z.ltb_spec i 16); [done |].
    symmetry. apply uint16_testbit_high; [done | lia].
Qed.

Lemma flip_inv_iter x (n : nat) :
  0 ≤ x < 65536 → (n ≤ 16)%nat →
  flip_inv x (Z.of_nat n) (Nat.iter n flip_step (0, x)).
Proof.
  intros Hx. induction n as [| n IH]; intros Hn.
  - apply flip_inv_init.
  - rewrite Nat2Z.inj_succ, <- Z.add_1_r. simpl.
    apply flip_inv_step; [done | lia | apply IH; lia].
Qed.

(** Bit [i] of the result is bit [15 - i] of the argument. *)
Lemma flip_uint16_testbit x i :
  0 ≤ i → Z.testbit (_flip_uint16 x) i = (i <? 16) && Z.testbit x (15 - i).
Proof.
  intros Hi. unfold _flip_uint16.
  destruct (flip_inv_iter (to_uint16 x) 16 (to_uint16_range x)) as [Hout _]; [lia |].
  rewrite Hout by done. change (Z.of_nat 16) with 16.
  replace (16 - 1 - i) with (15 - i) by lia.
  rewrite to_uint16_testbit.
  by destruct (Z.ltb_spec i 16), (Z.ltb_spec (15 - i) 16); try lia.
Qed.

Lemma flip_uint16_range x : 0 ≤ _flip_uint16 x < 65536.
Proof.
  unfold _flip_uint16. change 16%nat with (S 15). rewrite Nat.iter_succ.
  destruct (Nat.iter 15 flip_step (0, to_uint16 x)) as [out in_]. simpl.
  apply to_uint16_range.
Qed.

Lemma flip_uint16_zero : _flip_uint16 0 = 0.
Proof. reflexivity. Qed.

(** C4. The 16-bit bit-reversal [_flip_uint16] is self-inverse: reversing any
    16-bit word [x] twice yields [x]. *)
Theorem flip_uint16_involutive (x : Z) :
  0 ≤ x < 65536 → _flip_uint16 (_flip_uint16 x) = x.
Proof.
  intros Hx. apply uint16_bits_eq; [apply flip_uint16_range | done |].
  intros i Hi. rewrite !flip_uint16_testbit by lia.
  replace (15 - (15 - i)) with i by lia.
  by destruct (Z.ltb_spec i 16), (Z.ltb_spec (15 - i) 16); try lia.
Qed.

Lemma flip_uint16_involutive_witness :
  0 ≤ 0x1234 < 65536 ∧ _flip_uint16 (_flip_uint16 0x1234) = 0x1234.
Proof. split; [lia | apply flip_uint16_involutive; lia]. Defined.

(** ** Running the monad *)

Lemma transmit_transmit es1 es2 w :
  transmit es2 (transmit es1 w) = transmit (es1 ++ es2) w.
Proof. unfold transmit. simpl. by rewrite app_assoc. Qed.

Lemma transmit_nil w : transmit [] w = w.
Proof. destruct w as [c [l rx p]]. unfold transmit. simpl. by rewrite app_nil_r. Qed.

Lemma emit_run e w : emit e w = Some (tt, transmit [e] w).
Proof. reflexivity. Qed.

Lemma bind_run {A B} (m : M A) (k : A → M B) w a w' :
  m w = Some (a, w') → bind m k w = k a w'.
Proof. intros H. unfold bind. by rewrite H. Qed.

Lemma to_uint8_lor a b : to_uint8 (Z.lor a b) = Z.lor (to_uint8 a) (to_uint8 b).
Proof.
  apply Z.bits_inj'. intros i Hi.
  rewrite Z.lor_spec, !to_uint8_testbit, Z.lor_spec.
  by destruct (i <? 8).
Qed.

(** A whole command frame: begin, one byte, end. *)
Lemma command_run addr b w :
  (Wire_beginTransmission addr ;; Wire_write b ;; Wire_endTransmission) w =
  Some (tt, transmit [BeginTransmission (to_uint8 addr); WriteByte (to_uint8 b);
                      EndTransmission] w).
Proof.
  unfold Wire_beginTransmission, Wire_write, Wire_endTransmission, emit, bind, transmit.
  cbn [chip wire bus rxBuffer peripheral]. by rewrite <- !app_assoc.
Qed.

(** ** Orientation *)

Section Orientation.
Context {hdr : Header}.

(** C9. [reverse], [flipVertical], [flipHorizontal] and [resetOrientation]
    each change only their orientation flag(s): the eight buffer words, the
    bus address and the bus itself are left as they were. *)
Theorem orientation_ops_keep_buffer (w : World) :
  let c := chip w in
  reverse w = Some (tt, mkWorld
    (mkHT16K33 (_i2c_addr c) (_buffer c) (negb (_reversed c)) (_vFlipped c) (_hFlipped c))
    (wire w)) ∧
  flipVertical w = Some (tt, mkWorld
    (mkHT16K33 (_i2c_addr c) (_buffer c) (_reversed c) (negb (_vFlipped c)) (_hFlipped c))
    (wire w)) ∧
  flipHorizontal w = Some (tt, mkWorld
    (mkHT16K33 (_i2c_addr c) (_buffer c) (_reversed c) (_vFlipped c) (negb (_hFlipped c)))
    (wire w)) ∧
  resetOrientation w = Some (tt, mkWorld
    (mkHT16K33 (_i2c_addr c) (_buffer c) false false false)
    (wire w)) ∧
  ∀ op, op ∈ [reverse; flipVertical; flipHorizontal; resetOrientation] →
    ∃ w', op w = Some (tt, w') ∧ _buffer (chip w') = _buffer (chip w).
Proof.
  repeat split.
  intros op Hop.
  repeat (apply elem_of_cons in Hop as [-> | Hop]); [eexists; split; reflexivity ..|].
  by apply elem_of_nil in Hop.
Qed.

Lemma flipHorizontal_cancels (w : World) :
  (flipHorizontal ;; flipHorizontal) w = Some (tt, w).
Proof.
  destruct w as [[a b r v h] t].
  unfold flipHorizontal, bind, modify. simpl. by rewrite negb_involutive.
Qed.

(** C5. Whatever the buffer and the other two flags, calling
    [flipHorizontal] twice before [write] serializes exactly what [write]
    alone serializes: both runs end in the same state, bus log included. *)
Theorem flipHorizontal_twice_write (w : World) :
  (flipHorizontal ;; flipHorizontal ;; write) w = write w.
Proof.
  change ((flipHorizontal ;; flipHorizontal ;; write) w)
    with (match (flipHorizontal ;; flipHorizontal) w with
          | Some (_, w') => write w'
          | None => None
          end).
  by rewrite flipHorizontal_cancels.
Qed.

(** C7. [setRowIntPin] packs both booleans into one command byte, with
    [act] ANDed with [row_int] before the shift: [(true, true)] sends
    [ROWINT | 0b11], and [(false, act)] sends [ROWINT | 0b00] whatever [act]
    is. *)
Theorem setRowIntPin_encoding (w : World) :
  0 ≤ HT16K33_CMD_ROWINT < 256 →
  let frame b := transmit [BeginTransmission (to_uint8 (_i2c_addr (chip w)));
                           WriteByte b; EndTransmission] w in
  setRowIntPin true true w = Some (tt, frame (Z.lor HT16K33_CMD_ROWINT 3)) ∧
  setRowIntPin false true w = Some (tt, frame (Z.lor HT16K33_CMD_ROWINT 0)) ∧
  ∀ row_int act,
    setRowIntPin row_int act w =
    Some (tt, frame (Z.lor HT16K33_CMD_ROWINT
                       (Z.lor (Z.shiftl (Z.b2z (act && row_int)) 1) (Z.b2z row_int)))).
Proof.
  intros HR frame.
  assert (Hgen : ∀ row_int act,
    setRowIntPin row_int act w =
    Some (tt, frame (Z.lor HT16K33_CMD_ROWINT
                       (Z.lor (Z.shiftl (Z.b2z (act && row_int)) 1) (Z.b2z row_int))))).
  { intros row_int act. unfold setRowIntPin, frame.
    change (bind (gets _i2c_addr) ?k w) with (k (_i2c_addr (chip w)) w).
    cbv beta. rewrite command_run.
    rewrite <- Z.lor_assoc, to_uint8_lor, (to_uint8_small _ HR).
    by destruct row_int, act. }
  split; [| split]; [apply (Hgen true true) | apply (Hgen false true) | apply Hgen].
Qed.

End Orientation.

Lemma setRowIntPin_encoding_witness :
  let w := mkWorld (mkHT16K33 0x70 (replicate 8 0) false false false)
                   (mkTwoWire [] [] []) in
  setRowIntPin (hdr := datasheet) true true w =
    Some (tt, transmit [BeginTransmission 0x70; WriteByte 0xA3; EndTransmission] w) ∧
  setRowIntPin (hdr := datasheet) false true w =
    Some (tt, transmit [BeginTransmission 0x70; WriteByte 0xA0; EndTransmission] w).
Proof.
  intros w.
  assert (HR : 0 ≤ HT16K33_CMD_ROWINT (Header := datasheet) < 256) by (simpl; lia).
  destruct (setRowIntPin_encoding (hdr := datasheet) w HR) as (H11 & H01 & _).
  split; [exact H11 | exact H01].
Defined.

(** ** Key scan *)

Local Arguments to_uint8 : simpl never.
Local Arguments to_uint16 : simpl never.
Local Arguments _flip_uint16 : simpl never.
Local Arguments Z.lor : simpl never.
Local Arguments Z.land : simpl never.
Local Arguments Z.lnot : simpl never.
Local Arguments Z.shiftl : simpl never.
Local Arguments Z.shiftr : simpl never.
Local Arguments Z.testbit : simpl never.

(** Unfold the monadic plumbing of the goal and reduce what is decided. *)
Ltac run :=
  cbn [for_fold];
  unfold read_buffer, write_buffer, Wire_begin, Wire_beginTransmission,
    Wire_write, Wire_endTransmission, Wire_requestFrom, Wire_read, emit,
    bind, ret, gets, modify, lift;
  cbn.

Lemma array_store_run (a : list Z) i v :
  0 ≤ i < Z.of_nat (length a) →
  array_store a i v = Some (<[Z.to_nat i := to_uint16 v]> a).
Proof.
  intros Hi. unfold array_store.
  destruct (Z.leb_spec 0 i), (Z.ltb_spec i (Z.of_nat (length a))); (done || lia).
Qed.

Lemma array_load_run (a : list Z) i : 0 ≤ i → array_load a i = a !! Z.to_nat i.
Proof. intros Hi. unfold array_load. by destruct (Z.ltb_spec i 0); [lia |]. Qed.

Ltac in_bounds := rewrite ?length_insert; cbn [length]; lia.

(** Index literals as naturals. *)
Ltac index_literals :=
  repeat match goal with
  | |- context [Z.to_nat 0] => change (Z.to_nat 0) with 0%nat
  | |- context [Z.to_nat (Zpos ?p)] =>
      let n := eval vm_compute in (Z.to_nat (Zpos p)) in
      change (Z.to_nat (Zpos p)) with n
  end.

Ltac store_steps :=
  repeat (rewrite array_store_run by in_bounds; cbn; index_literals; cbn).

Lemma uint8_testbit_high x i : 0 ≤ x < 256 → 8 ≤ i → Z.testbit x i = false.
Proof.
  intros Hx Hi. rewrite <- (to_uint8_small x Hx), to_uint8_testbit.
  destruct (Z.ltb_spec i 8); [lia | done].
Qed.

(** A word assembled from its low byte [lo] and high byte [hi]. *)
Lemma word_of_bytes lo hi :
  0 ≤ lo < 256 → 0 ≤ hi < 256 →
  to_uint16 (Z.lor (Z.shiftl hi 8) (to_uint16 lo)) = lo + 256 * hi.
Proof.
  intros Hlo Hhi. rewrite (to_uint16_small lo) by lia.
  assert (Hdisj : Z.land (Z.shiftl hi 8) lo = 0).
  { apply Z.bits_inj'. intros i Hi. rewrite Z.land_spec, Z.bits_0.
    destruct (Z.lt_ge_cases i 8).
    - by rewrite Z.shiftl_spec_low.
    - rewrite (uint8_testbit_high lo) by done. apply andb_false_r. }
  rewrite <- Z.lxor_lor, <- Z.add_nocarry_lxor by done.
  rewrite Z.shiftl_mul_pow2 by lia. change (2 ^ 8) with 256.
  rewrite to_uint16_small; lia.
Qed.

Section KeyScan.
Context {hdr : Header}.

(** C3. [getKeyData] first selects the key-data register (a one-byte command
    frame), then requests 6 bytes, and decodes the first four of them into
    exactly two row words, low byte first; the last two bytes stay unread in
    the receive buffer and the third array element is not assigned. *)
Theorem getKeyData_decodes_two_rows
    (c : HT16K33) (log : list bus_event) (rx rest : list Z)
    (b0 b1 b2 b3 b4 b5 o0 o1 o2 : Z) :
  0 ≤ HT16K33_CMD_KEYS < 256 →
  Forall (λ b, 0 ≤ b < 256) [b0; b1; b2; b3] →
  getKeyData [o0; o1; o2]
    (mkWorld c (mkTwoWire log rx (b0 :: b1 :: b2 :: b3 :: b4 :: b5 :: rest))) =
  Some ([b0 + 256 * b1; b2 + 256 * b3; o2],
        mkWorld c
          (mkTwoWire
             (log ++ [BeginTransmission (to_uint8 (_i2c_addr c));
                      WriteByte HT16K33_CMD_KEYS;
                      EndTransmission;
                      RequestFrom (to_uint8 (_i2c_addr c)) 6])
             [b4; b5] rest)).
Proof.
  intros HK Hb.
  apply Forall_cons in Hb as [H0 Hb]. apply Forall_cons in Hb as [H1 Hb].
  apply Forall_cons in Hb as [H2 Hb]. apply Forall_cons in Hb as [H3 _].
  unfold getKeyData. change (seqZ 0 2) with [0; 1]. run.
  repeat change (to_uint8 6) with 6. change (Z.to_nat 6) with 6%nat. cbn.
  rewrite take_0, drop_0.
  store_steps.
  rewrite <- !app_assoc. cbn [app].
  by rewrite !word_of_bytes, (to_uint8_small _ HK).
Qed.

(** C10. [getKeyData] assigns only elements 0 and 1 of the caller's array:
    whatever the array held and whatever the peripheral answers, element 2
    of a 3-element key buffer is returned as it was (and the driver's own
    state is untouched). *)
Theorem getKeyData_keeps_third_element (w : World) (o0 o1 o2 : Z) :
  ∃ k0 k1 w',
    getKeyData [o0; o1; o2] w = Some ([k0; k1; o2], w') ∧ chip w' = chip w.
Proof.
  destruct w as [c [log rx p]].
  unfold getKeyData. change (seqZ 0 2) with [0; 1].
  destruct p as [| b0 [| b1 [| b2 [| b3 p]]]]; run;
    repeat change (to_uint8 6) with 6; change (Z.to_nat 6) with 6%nat; cbn;
    store_steps; eauto.
Qed.

End KeyScan.

Lemma getKeyData_decodes_two_rows_witness :
  getKeyData (hdr := datasheet) [7; 8; 9]
    (mkWorld (mkHT16K33 0x70 (replicate 8 0) false false false)
       (mkTwoWire [] [] [0x34; 0x12; 0xCD; 0x0B; 0x01; 0x00])) =
  Some ([0x1234; 0x0BCD; 9],
        mkWorld (mkHT16K33 0x70 (replicate 8 0) false false false)
          (mkTwoWire [BeginTransmission 0x70; WriteByte 0x40; EndTransmission;
                      RequestFrom 0x70 6]
             [0x01; 0x00] [])).
Proof.
  apply (getKeyData_decodes_two_rows (hdr := datasheet)
           (mkHT16K33 0x70 (replicate 8 0) false false false) [] [] []
           0x34 0x12 0xCD 0x0B 0x01 0x00 7 8 9).
  - simpl. lia.
  - repeat constructor; lia.
Defined.

(** ** Serialization *)

Lemma chip_transmit es w : chip (transmit es w) = chip w.
Proof. reflexivity. Qed.

(** A loop whose body only puts events on the bus puts the events of all
    its rounds on the bus, in order. *)
Lemma for_fold_transmit (body : Z → M unit) (ev : Z → list bus_event) l w :
  (∀ i w', i ∈ l → chip w' = chip w → body i w' = Some (tt, transmit (ev i) w')) →
  for_fold l (λ i _, body i) tt w = Some (tt, transmit (flat_map ev l) w).
Proof.
  revert w. induction l as [| i l IH]; intros w Hbody.
  - cbn. by rewrite transmit_nil.
  - cbn [for_fold flat_map]. unfold bind.
    rewrite Hbody by (done || apply list_elem_of_here).
    rewrite IH.
    + by rewrite transmit_transmit.
    + intros j w' Hj Hw'. apply Hbody; [by apply list_elem_of_further | done].
Qed.

Lemma flat_map_fmap {A B C} (f : B → C) (g : A → list B) (l : list A) :
  flat_map (λ x, f <$> g x) l = f <$> flat_map g l.
Proof.
  induction l as [| x l IH]; [done |]. cbn [flat_map]. by rewrite fmap_app, IH.
Qed.

Lemma high_byte x : is_uint16 x → to_uint8 (Z.shiftr x 8) = x / 256.
Proof.
  intros Hx. rewrite Z.shiftr_div_pow2 by lia. change (2 ^ 8) with 256.
  apply to_uint8_small. unfold is_uint16 in Hx.
  split; [apply Z.div_pos; lia | apply Z.div_lt_upper_bound; lia].
Qed.

Lemma low_byte x : to_uint8 (Z.land x 0xFF) = x mod 256.
Proof.
  change 0xFF with (Z.ones 8). rewrite Z.land_ones by lia. change (2 ^ 8) with 256.
  apply to_uint8_small. apply Z.mod_pos_bound. lia.
Qed.

(** One run of [writeRow] on an existing row. *)
Lemma writeRow_run w row word :
  0 ≤ row < 8 →
  _buffer (chip w) !! Z.to_nat (if _vFlipped (chip w) then 7 - row else row) = Some word →
  writeRow row w =
  Some (tt, transmit
              (let out := if _hFlipped (chip w) then _flip_uint16 word else word in
               if _reversed (chip w)
               then [WriteByte (to_uint8 (Z.shiftr out 8)); WriteByte (to_uint8 (Z.land out 0xFF))]
               else [WriteByte (to_uint8 (Z.land out 0xFF)); WriteByte (to_uint8 (Z.shiftr out 8))])
              w).
Proof.
  intros Hrow Hword. unfold writeRow.
  rewrite (to_uint8_small row) by lia. rewrite (to_uint8_small (7 - row)) by lia.
  unfold read_buffer, bind, gets, lift.
  rewrite array_load_run by (destruct (_vFlipped (chip w)); lia).
  rewrite Hword.
  destruct (_reversed (chip w)); unfold Wire_write, emit, transmit;
    cbn [chip wire bus rxBuffer peripheral]; by rewrite <- app_assoc.
Qed.

Lemma buffer_row_exists (b : list Z) (vf : bool) row :
  length b = 8%nat → 0 ≤ row < 8 →
  ∃ word, b !! Z.to_nat (if vf then 7 - row else row) = Some word.
Proof.
  intros Hlen Hrow. apply lookup_lt_is_Some_2. destruct vf; lia.
Qed.

Section Serialization.
Context {hdr : Header}.

(** C1. [writeRow] applies three stages in this order: the row index is
    mirrored to [7 - row] when [_vFlipped]; the word read there is
    bit-reversed when [_hFlipped]; the two bytes are sent low byte first, or
    high byte first when [_reversed].  With buffer row 3 holding 0x0005,
    physical row 3 is sent as 0x05, 0x00 with all flags clear, as 0x00, 0x05
    with [_reversed] alone, and as 0x00, 0xA0 with [_hFlipped] alone. *)
Theorem writeRow_pipeline :
  (∀ (w : World) (row : Z),
     0 ≤ row < 8 →
     length (_buffer (chip w)) = 8%nat →
     Forall is_uint16 (_buffer (chip w)) →
     ∃ word out,
       _buffer (chip w) !! Z.to_nat (if _vFlipped (chip w) then 7 - row else row)
         = Some word ∧
       (if _hFlipped (chip w)
        then is_uint16 out ∧
             ∀ i, 0 ≤ i < 16 → Z.testbit out i = Z.testbit word (15 - i)
        else out = word) ∧
       writeRow row w =
       Some (tt, transmit
                   (if _reversed (chip w)
                    then [WriteByte (out / 256); WriteByte (out mod 256)]
                    else [WriteByte (out mod 256); WriteByte (out / 256)])
                   w)) ∧
  (∀ (addr r0 r1 r2 r4 r5 r6 r7 : Z) (t : TwoWire),
     let buffer := [r0; r1; r2; 0x0005; r4; r5; r6; r7] in
     let plain := mkWorld (mkHT16K33 addr buffer false false false) t in
     let swapped := mkWorld (mkHT16K33 addr buffer true false false) t in
     let mirrored := mkWorld (mkHT16K33 addr buffer false false true) t in
     writeRow 3 plain = Some (tt, transmit [WriteByte 0x05; WriteByte 0x00] plain) ∧
     writeRow 3 swapped = Some (tt, transmit [WriteByte 0x00; WriteByte 0x05] swapped) ∧
     writeRow 3 mirrored = Some (tt, transmit [WriteByte 0x00; WriteByte 0xA0] mirrored)).
Proof.
  split.
  - intros w row Hrow Hlen Hwf.
    destruct (buffer_row_exists _ (_vFlipped (chip w)) row Hlen Hrow) as [word Hword].
    assert (Hw16 : is_uint16 word).
    { eapply Forall_lookup_1 in Hwf; [apply Hwf | apply Hword]. }
    exists word, (if _hFlipped (chip w) then _flip_uint16 word else word).
    split; [done |]. split.
    + destruct (_hFlipped (chip w)); [| done].
      split; [apply flip_uint16_range |].
      intros i Hi. rewrite flip_uint16_testbit by lia.
      by destruct (Z.ltb_spec i 16); [| lia].
    + rewrite (writeRow_run w row word Hrow Hword). cbv zeta.
      assert (Hout : is_uint16 (if _hFlipped (chip w) then _flip_uint16 word else word)).
      { destruct (_hFlipped (chip w)); [apply flip_uint16_range | done]. }
      by rewrite (high_byte _ Hout), low_byte.
  - intros addr r0 r1 r2 r4 r5 r6 r7 t buffer plain swapped mirrored.
    split; [| split].
    + by rewrite (writeRow_run plain 3 0x0005).
    + by rewrite (writeRow_run swapped 3 0x0005).
    + by rewrite (writeRow_run mirrored 3 0x0005).
Qed.

Lemma writeRow_zero w row :
  0 ≤ row < 8 → _buffer (chip w) = replicate 8 0 →
  writeRow row w = Some (tt, transmit [WriteByte 0; WriteByte 0] w).
Proof.
  intros Hrow Hbuf. rewrite (writeRow_run w row 0 Hrow).
  - by destruct (_hFlipped (chip w)), (_reversed (chip w)).
  - rewrite Hbuf. apply lookup_replicate_2. destruct (_vFlipped (chip w)); lia.
Qed.

Lemma write_zero w :
  _buffer (chip w) = replicate 8 0 →
  write w =
  Some (tt, transmit ([BeginTransmission (to_uint8 (_i2c_addr (chip w)));
                       WriteByte (to_uint8 HT16K33_CMD_RAM)]
                      ++ replicate 16 (WriteByte 0) ++ [EndTransmission]) w).
Proof.
  intros Hbuf. unfold write, for_.
  unfold bind at 1 2 3, gets, Wire_beginTransmission, Wire_write. rewrite !emit_run.
  unfold bind.
  rewrite (for_fold_transmit writeRow (λ _, [WriteByte 0; WriteByte 0])).
  - unfold Wire_endTransmission. rewrite emit_run, !transmit_transmit.
    reflexivity.
  - intros i w' Hi Hw'. apply elem_of_seqZ in Hi.
    apply writeRow_zero; [lia |]. by rewrite Hw'.
Qed.

Lemma clear_run w :
  length (_buffer (chip w)) = 8%nat →
  clear w = Some (tt, with_buffer (replicate 8 0) w).
Proof.
  destruct w as [[a b r v h] t]. cbn [chip _buffer]. intros Hlen.
  do 8 (destruct b as [| ? b]; [discriminate Hlen |]).
  destruct b; [| discriminate Hlen].
  unfold clear, for_. change (seqZ 0 (8 - 0)) with [0; 1; 2; 3; 4; 5; 6; 7].
  run. unfold set_buffer. cbn. store_steps.
  reflexivity.
Qed.

(** C6. Whatever the three orientation flags are, [clear()] followed by
    [write()] sends, after the display-RAM command byte, 16 data bytes that
    are all zero (8 rows of 2 bytes), and ends the transmission. *)
Theorem clear_then_write_sends_zeros (w : World) :
  length (_buffer (chip w)) = 8%nat →
  (clear ;; write) w =
  Some (tt, transmit ([BeginTransmission (to_uint8 (_i2c_addr (chip w)));
                       WriteByte (to_uint8 HT16K33_CMD_RAM)]
                      ++ replicate 16 (WriteByte 0) ++ [EndTransmission])
              (with_buffer (replicate 8 0) w)).
Proof.
  intros Hlen. rewrite (bind_run _ _ _ _ _ (clear_run w Hlen)).
  by rewrite write_zero.
Qed.

(** [write] on an allocated buffer always succeeds and frames 16 data bytes
    between the display-RAM command and the end of the transmission. *)
Lemma write_run w :
  length (_buffer (chip w)) = 8%nat →
  ∃ data,
    length data = 16%nat ∧
    write w =
    Some (tt, transmit ([BeginTransmission (to_uint8 (_i2c_addr (chip w)));
                         WriteByte (to_uint8 HT16K33_CMD_RAM)]
                        ++ (WriteByte <$> data) ++ [EndTransmission]) w).
Proof.
  intros Hlen.
  set (bytes := λ row : Z,
    let word := _buffer (chip w)
                  !!! Z.to_nat (if _vFlipped (chip w) then 7 - row else row) in
    let out := if _hFlipped (chip w) then _flip_uint16 word else word in
    if _reversed (chip w)
    then [to_uint8 (Z.shiftr out 8); to_uint8 (Z.land out 0xFF)]
    else [to_uint8 (Z.land out 0xFF); to_uint8 (Z.shiftr out 8)]).
  exists (flat_map bytes (seqZ 0 8)). split.
  { unfold bytes. by destruct (_reversed (chip w)). }
  unfold write, for_.
  unfold bind at 1 2 3, gets, Wire_beginTransmission, Wire_write. rewrite !emit_run.
  unfold bind.
  rewrite (for_fold_transmit writeRow (λ row, WriteByte <$> bytes row)).
  - unfold Wire_endTransmission. rewrite emit_run, !transmit_transmit.
    by rewrite flat_map_fmap.
  - intros i w' Hi Hw'. apply elem_of_seqZ in Hi.
    rewrite !chip_transmit in Hw'.
    destruct (buffer_row_exists (_buffer (chip w)) (_vFlipped (chip w)) i Hlen)
      as [word Hword]; [lia |].
    rewrite (writeRow_run w' i word); [| lia | by rewrite Hw'].
    rewrite Hw'. unfold bytes.
    rewrite (list_lookup_total_correct _ _ _ Hword).
    by destruct (_reversed (chip w)).
Qed.

(** [init] leaves an allocated, zeroed buffer and cleared orientation. *)
Lemma init_run addr w :
  ∃ w', init addr w = Some (tt, w') ∧
        chip w' = mkHT16K33 (to_uint8 addr) (replicate 8 0) false false false.
Proof.
  unfold init, resetOrientation, wakeUp, setBlink, setBrightness. cbv zeta.
  unfold bind at 1 2 3 4, modify, Wire_begin. rewrite emit_run.
  cbn [chip wire _i2c_addr _buffer _reversed _vFlipped _hFlipped set_buffer].
  unfold bind at 1. unfold bind at 1. unfold gets at 1.
  cbn [chip wire _i2c_addr _buffer _reversed _vFlipped _hFlipped].
  rewrite command_run.
  unfold bind at 1. unfold bind at 1. unfold gets at 1.
  cbn [chip wire _i2c_addr _buffer _reversed _vFlipped _hFlipped transmit].
  rewrite command_run.
  unfold bind at 1. unfold bind at 1. unfold gets at 1.
  cbn [chip wire _i2c_addr _buffer _reversed _vFlipped _hFlipped transmit].
  rewrite command_run.
  rewrite write_zero by done. eexists. split; [reflexivity | done].
Qed.

End Serialization.

Lemma writeRow_pipeline_witness :
  let w := mkWorld (mkHT16K33 0x70 [1; 2; 3; 4; 5; 0x8001; 7; 8] true true true)
                   (mkTwoWire [] [] []) in
  ∃ word out,
    _buffer (chip w) !! Z.to_nat (7 - 2) = Some word ∧
    (is_uint16 out ∧ ∀ i, 0 ≤ i < 16 → Z.testbit out i = Z.testbit word (15 - i)) ∧
    writeRow 2 w = Some (tt, transmit [WriteByte (out / 256); WriteByte (out mod 256)] w).
Proof.
  intros w. apply (proj1 writeRow_pipeline w 2).
  - lia.
  - reflexivity.
  - repeat constructor; unfold is_uint16; lia.
Defined.

Lemma clear_then_write_sends_zeros_witness :
  let w := mkWorld (mkHT16K33 0x70 [1; 2; 3; 4; 5; 6; 7; 0xFFFF] true false true)
                   (mkTwoWire [] [] []) in
  (clear ;; write (hdr := datasheet)) w =
  Some (tt, transmit ([BeginTransmission 0x70; WriteByte 0x00]
                      ++ replicate 16 (WriteByte 0) ++ [EndTransmission])
              (with_buffer (replicate 8 0) w)).
Proof.
  intros w. apply (clear_then_write_sends_zeros (hdr := datasheet) w). reflexivity.
Defined.

(** ** Pixels *)

Lemma mask_low x k :
  0 ≤ k ≤ 8 → to_uint8 (Z.land (to_uint8 x) (Z.ones k)) = x mod 2 ^ k.
Proof.
  intros Hk. apply Z.bits_inj'. intros i Hi.
  rewrite to_uint8_testbit, Z.land_spec, to_uint8_testbit,
    Z.testbit_ones_nonneg, Z.testbit_mod_pow2 by lia.
  destruct (Z.ltb_spec i 8), (Z.ltb_spec i k), (Z.testbit x i); (done || lia).
Qed.

Lemma mask_0F x : to_uint8 (Z.land (to_uint8 x) 0x0F) = x mod 16.
Proof. apply (mask_low x 4). lia. Qed.

Lemma mask_07 x : to_uint8 (Z.land (to_uint8 x) 0x07) = x mod 8.
Proof. apply (mask_low x 3). lia. Qed.

Lemma mask_01 x : to_uint8 (Z.land (to_uint8 x) 0x01) = x mod 2.
Proof. apply (mask_low x 1). lia. Qed.

Lemma testbit_one_shiftl c i : 0 ≤ c → Z.testbit (Z.shiftl 1 c) i = (c =? i).
Proof. intros Hc. rewrite Z.shiftl_1_l. by apply Z.pow2_bits_eqb. Qed.

(** Setting and then clearing bit [c] of a word: bit [c] ends up clear and
    the other fifteen bits are those of the word. *)
Lemma set_clear_word old c i :
  0 ≤ c → 0 ≤ i < 16 →
  Z.testbit (to_uint16 (Z.land (to_uint16 (Z.lor old (Z.shiftl 1 c)))
                               (Z.lnot (Z.shiftl 1 c)))) i
  = Z.testbit old i && negb (c =? i).
Proof.
  intros Hc Hi.
  rewrite to_uint16_testbit, Z.land_spec, to_uint16_testbit, Z.lor_spec,
    Z.lnot_spec, testbit_one_shiftl by lia.
  destruct (Z.ltb_spec i 16); [| lia].
  by destruct (Z.testbit old i), (c =? i).
Qed.

Lemma setPixel_run col row val w old :
  _buffer (chip w) !! Z.to_nat (row mod 8) = Some old →
  setPixel col row val w =
  Some (tt, with_buffer
              (<[Z.to_nat (row mod 8) :=
                   to_uint16 (if val mod 2 =? 1
                              then Z.lor old (Z.shiftl 1 (col mod 16))
                              else Z.land old (Z.lnot (Z.shiftl 1 (col mod 16))))]>
                 (_buffer (chip w)))
              w).
Proof.
  intros Hold. unfold setPixel. cbv zeta.
  rewrite mask_0F, mask_07, mask_01.
  assert (Hr : 0 ≤ row mod 8 < 8) by (apply Z.mod_pos_bound; lia).
  pose proof (lookup_lt_Some _ _ _ Hold) as Hlt.
  destruct (val mod 2 =? 1);
    unfold read_buffer, write_buffer, bind, gets, lift, modify; cbv beta iota;
    rewrite array_load_run, Hold by lia; cbv beta iota;
    rewrite array_store_run by lia; reflexivity.
Qed.

Lemma pixel_with_buffer b w col row :
  pixel (with_buffer b w) col row = (λ word, Z.testbit word col) <$> array_load b row.
Proof. reflexivity. Qed.

(** C2, as the code has it.  [setPixel(col, row, 1)] followed by
    [setPixel(col, row, 0)] leaves the bit at column [col mod 16] of row
    [row mod 8] clear, whatever it was, and every other pixel as it was: the
    bit has its earlier value again exactly when it was 0 before the calls. *)
Theorem setPixel_set_then_clear (col row : Z) (w : World) :
  length (_buffer (chip w)) = 8%nat →
  ∃ w',
    (setPixel col row 1 ;; setPixel col row 0) w = Some (tt, w') ∧
    pixel w' (col mod 16) (row mod 8) = Some false ∧
    (pixel w' (col mod 16) (row mod 8) = pixel w (col mod 16) (row mod 8)
       ↔ pixel w (col mod 16) (row mod 8) = Some false) ∧
    (∀ c r, 0 ≤ c < 16 → (c, r) ≠ (col mod 16, row mod 8) →
       pixel w' c r = pixel w c r).
Proof.
  intros Hlen.
  assert (Hr : 0 ≤ row mod 8 < 8) by (apply Z.mod_pos_bound; lia).
  assert (Hc : 0 ≤ col mod 16 < 16) by (apply Z.mod_pos_bound; lia).
  destruct (lookup_lt_is_Some_2 (_buffer (chip w)) (Z.to_nat (row mod 8)))
    as [old Hold]; [lia |].
  set (v1 := to_uint16 (Z.lor old (Z.shiftl 1 (col mod 16)))).
  set (v2 := to_uint16 (Z.land v1 (Z.lnot (Z.shiftl 1 (col mod 16))))).
  exists (with_buffer (<[Z.to_nat (row mod 8) := v2]> (_buffer (chip w))) w).
  assert (Hpix : pixel (with_buffer (<[Z.to_nat (row mod 8) := v2]> (_buffer (chip w))) w)
                   (col mod 16) (row mod 8) = Some false).
  { rewrite pixel_with_buffer, array_load_run, list_lookup_insert_eq by lia.
    cbn. f_equal. unfold v2, v1. rewrite set_clear_word by lia.
    rewrite Z.eqb_refl. apply andb_false_r. }
  split; [| split; [done | split]].
  - rewrite (bind_run _ _ _ _ _ (setPixel_run col row 1 w old Hold)).
    change (1 mod 2 =? 1) with true. cbv iota. fold v1.
    rewrite (setPixel_run col row 0 _ v1).
    + change (0 mod 2 =? 1) with false. cbv iota. fold v2.
      unfold with_buffer, set_buffer. cbn. by rewrite list_insert_insert_eq.
    + cbn. apply list_lookup_insert_eq. lia.
  - rewrite Hpix. split; [done | by intros ->].
  - intros c r Hcr Hne. rewrite pixel_with_buffer. unfold pixel, array_load.
    destruct (Z.ltb_spec r 0); [done |].
    destruct (decide (r = row mod 8)) as [-> | Hrow].
    + rewrite list_lookup_insert_eq, Hold by lia. cbn. f_equal.
      unfold v2, v1. rewrite set_clear_word by lia.
      destruct (Z.eqb_spec (col mod 16) c) as [<- | _]; [done |].
      apply andb_true_r.
    + rewrite list_lookup_insert_ne by lia. done.
Qed.

Lemma setPixel_set_then_clear_witness :
  let w := mkWorld (mkHT16K33 0x70 [0; 0; 0x00F0; 0; 0; 0; 0; 0] false true false)
                   (mkTwoWire [] [] []) in
  ∃ w',
    (setPixel 17 10 1 ;; setPixel 17 10 0) w = Some (tt, w') ∧
    pixel w' (17 mod 16) (10 mod 8) = Some false ∧
    (pixel w' (17 mod 16) (10 mod 8) = pixel w (17 mod 16) (10 mod 8)
       ↔ pixel w (17 mod 16) (10 mod 8) = Some false) ∧
    (∀ c r, 0 ≤ c < 16 → (c, r) ≠ (17 mod 16, 10 mod 8) →
       pixel w' c r = pixel w c r).
Proof. intros w. apply (setPixel_set_then_clear 17 10 w). reflexivity. Defined.

(** C2, as the spec states it, fails when the bit is lit beforehand: with
    bit 0 of row 0 set, the two calls end with that bit clear, not restored. *)
Lemma setPixel_set_then_clear_not_restored :
  let w := mkWorld (mkHT16K33 0x70 [1; 0; 0; 0; 0; 0; 0; 0] false false false)
                   (mkTwoWire [] [] []) in
  let w' := mkWorld (mkHT16K33 0x70 [0; 0; 0; 0; 0; 0; 0; 0] false false false)
                    (mkTwoWire [] [] []) in
  (setPixel 0 0 1 ;; setPixel 0 0 0) w = Some (tt, w') ∧
  pixel w (0 mod 16) (0 mod 8) = Some true ∧
  pixel w' (0 mod 16) (0 mod 8) = Some false ∧
  pixel w' (0 mod 16) (0 mod 8) ≠ pixel w (0 mod 16) (0 mod 8).
Proof. intros w w'. repeat split. discriminate. Qed.

(** ** Sprites *)

Lemma for_fold_app {A} (l1 l2 : list Z) (body : Z → A → M A) a w :
  for_fold (l1 ++ l2) body a w =
  match for_fold l1 body a w with
  | Some (a', w') => for_fold l2 body a' w'
  | None => None
  end.
Proof.
  revert a w. induction l1 as [| i l1 IH]; intros a w; [done |].
  cbn [app for_fold]. unfold bind. destruct (body i a w) as [[a' w'] |]; [apply IH | done].
Qed.

(** The rule for a counting loop: an invariant that holds at the start and
    is kept by every round holds at the end, and the loop does end. *)
Lemma for_inv (I : Z → World → Prop) (body : Z → M unit) (n : nat) w :
  I 0 w →
  (∀ k w', 0 ≤ k < Z.of_nat n → I k w' →
     ∃ w'', body k w' = Some (tt, w'') ∧ I (k + 1) w'') →
  ∃ w', for_ 0 (Z.of_nat n) body w = Some (tt, w') ∧ I (Z.of_nat n) w'.
Proof.
  unfold for_. rewrite Z.sub_0_r. intros H0.
  induction n as [| n IH]; intros Hstep.
  - exists w. by split.
  - destruct IH as (w' & Hrun & Hinv).
    { intros k w' Hk. apply Hstep. lia. }
    destruct (Hstep (Z.of_nat n) w') as (w'' & Hbody & Hinv''); [lia | done |].
    exists w''. rewrite seqZ_S, for_fold_app, Hrun. cbn [for_fold]. unfold bind.
    rewrite Z.add_0_l, Hbody. split; [done |].
    rewrite Nat2Z.inj_succ, <- Z.add_1_r. done.
Qed.

Lemma with_buffer_id w : with_buffer (_buffer (chip w)) w = w.
Proof. by destruct w as [[a b r v h] t]. Qed.

(** [_buffer[i] |= v] on an existing row. *)
Lemma or_row_run i v w old :
  0 ≤ i → _buffer (chip w) !! Z.to_nat i = Some old →
  (old <- read_buffer i ;; write_buffer i (Z.lor old v)) w =
  Some (tt, with_buffer (<[Z.to_nat i := to_uint16 (Z.lor old v)]> (_buffer (chip w))) w).
Proof.
  intros Hi Hold. pose proof (lookup_lt_Some _ _ _ Hold) as Hlt.
  unfold read_buffer, write_buffer, bind, gets, lift, modify. cbv beta iota.
  rewrite array_load_run, Hold by lia. cbv beta iota.
  by rewrite array_store_run by lia.
Qed.

Lemma sprite_lights_0 sprite co ro c j : sprite_lights sprite co ro 0 c j = false.
Proof. reflexivity. Qed.

Lemma sprite_lights_succ sprite co ro k c j :
  0 ≤ k →
  sprite_lights sprite co ro (k + 1) c j =
  sprite_lights sprite co ro k c j
  || ((k + ro) mod 8 =? j) && Z.testbit (Z.land (Z.shiftl (readRow sprite k) co) 0xFFFF) c.
Proof.
  intros Hk. unfold sprite_lights.
  rewrite seqZ_app by lia. rewrite existsb_app.
  change (seqZ (0 + k) 1) with [0 + (0 + k)]. cbn [existsb].
  by rewrite !Z.add_0_l, orb_false_r.
Qed.

Lemma draw_inv_init sprite co ro w :
  length (_buffer (chip w)) = 8%nat → draw_inv sprite co ro w 0 w.
Proof.
  intros Hlen. exists (_buffer (chip w)).
  split; [by rewrite with_buffer_id |]. split; [done |]. split; [done |].
  intros c j _ _. by rewrite sprite_lights_0, orb_false_r.
Qed.

(** One round of [drawSprite16] with a defined shift. *)
Lemma draw_row_run i v co w old :
  0 ≤ i → co < 16 → _buffer (chip w) !! Z.to_nat i = Some old →
  (shifted <- lift (shift_left v co) ;;
   old <- read_buffer i ;;
   write_buffer i (Z.lor old (Z.land shifted 0xFFFF))) w =
  Some (tt, with_buffer
              (<[Z.to_nat i := to_uint16 (Z.lor old (Z.land (Z.shiftl v co) 0xFFFF))]>
                 (_buffer (chip w))) w).
Proof.
  intros Hi Hco Hold. unfold bind at 1. unfold lift at 1, shift_left.
  destruct (Z.ltb_spec co 16); [| lia]. by apply or_row_run.
Qed.

Lemma draw_inv_step sprite co ro w k w' :
  0 ≤ k → 0 ≤ ro → co < 16 →
  draw_inv sprite co ro w k w' →
  ∃ w'',
    (let i := Z.land (k + ro) 0x07 in
     shifted <- lift (shift_left (readRow sprite k) co) ;;
     old <- read_buffer i ;;
     write_buffer i (Z.lor old (Z.land shifted 0xFFFF))) w'
    = Some (tt, w'') ∧
    draw_inv sprite co ro w (k + 1) w''.
Proof.
  intros Hk Hro Hco (b' & -> & Hlen & Hwf & Hbits). cbv zeta.
  change 0x07 with (Z.ones 3). rewrite Z.land_ones by lia. change (2 ^ 3) with 8.
  set (i := (k + ro) mod 8).
  assert (Hi : 0 ≤ i < 8) by (apply Z.mod_pos_bound; lia).
  destruct (lookup_lt_is_Some_2 b' (Z.to_nat i)) as [old Hold]; [lia |].
  set (v := Z.land (Z.shiftl (readRow sprite k) co) 0xFFFF).
  eexists. split.
  - apply draw_row_run; [lia | done | exact Hold].
  - exists (<[Z.to_nat i := to_uint16 (Z.lor old v)]> b').
    split; [done |]. split; [by rewrite length_insert |]. split.
    + intros Hw. apply Forall_insert; [by apply Hwf | apply to_uint16_range].
    + intros c j Hc Hj. rewrite sprite_lights_succ by done. fold i v.
      destruct (decide (i = j)) as [<- | Hne].
      * rewrite list_lookup_total_insert_eq by lia.
        rewrite to_uint16_testbit, Z.lor_spec.
        rewrite <- (list_lookup_total_correct b' _ _ Hold).
        rewrite Hbits by done. rewrite Z.eqb_refl.
        destruct (Z.ltb_spec c 16); [| lia]. cbn.
        by rewrite orb_assoc.
      * rewrite list_lookup_total_insert_ne by lia.
        rewrite Hbits by done.
        destruct (Z.eqb_spec i j); [done |]. cbn.
        by rewrite orb_false_r.
Qed.

(** With no offsets and at most 8 rows, sprite row [j] is the only one that
    lands on buffer row [j]. *)
Lemma sprite_lights_no_offset sprite h c j :
  0 ≤ h ≤ 8 → 0 ≤ j < 8 →
  sprite_lights sprite 0 0 h c j =
  (j <? h) && Z.testbit (Z.land (readRow sprite j) 0xFFFF) c.
Proof.
  intros Hh Hj. unfold sprite_lights. apply eq_true_iff_eq.
  rewrite existsb_exists, andb_true_iff, Z.ltb_lt. split.
  - intros (r & Hr & Hf). apply list_elem_of_In, elem_of_seqZ in Hr.
    apply andb_true_iff in Hf as [Heq Hbit]. apply Z.eqb_eq in Heq.
    rewrite Z.add_0_r, Z.mod_small in Heq by lia. subst r.
    rewrite Z.shiftl_0_r in Hbit. split; [lia | done].
  - intros [Hlt Hbit]. exists j. split.
    + apply list_elem_of_In, elem_of_seqZ. lia.
    + rewrite Z.add_0_r, Z.mod_small, Z.eqb_refl, Z.shiftl_0_r by lia. done.
Qed.

Lemma land_FFFF x : Z.land x 0xFFFF = to_uint16 x.
Proof. change 0xFFFF with (Z.ones 16). by rewrite Z.land_ones by lia. Qed.

Lemma pixel_lookup w c j word :
  0 ≤ j → _buffer (chip w) !! Z.to_nat j = Some word →
  pixel w c j = Some (Z.testbit word c).
Proof. intros Hj Hword. unfold pixel. by rewrite array_load_run, Hword by done. Qed.





(** * Further properties of the driver *)

(** ** Bit reversal, bit by bit *)

(** X1. [_flip_uint16] returns a 16-bit word whose bit [i] is bit [15 - i]
    of its argument; bits of the argument above bit 15 play no part. *)
Theorem flip_uint16_mirrors (x : Z) :
  0 ≤ _flip_uint16 x < 65536 ∧
  (∀ i, 0 ≤ i < 16 → Z.testbit (_flip_uint16 x) i = Z.testbit x (15 - i)) ∧
  _flip_uint16 (x + 65536) = _flip_uint16 x.
Proof.
  split; [apply flip_uint16_range |]. split.
  - intros i Hi. rewrite flip_uint16_testbit by lia.
    by destruct (Z.ltb_spec i 16); [| lia].
  - apply uint16_bits_eq; try apply flip_uint16_range.
    intros i Hi. rewrite !flip_uint16_testbit by lia.
    destruct (Z.ltb_spec i 16); [| lia]. cbn.
    rewrite <- (Z.mod_pow2_bits_low (x + 65536) 16 (15 - i)) by lia.
    rewrite <- (Z.mod_pow2_bits_low x 16 (15 - i)) by lia.
    change (2 ^ 16) with 65536. change (x + 65536) with (x + 1 * 65536).
    by rewrite Z.mod_add by lia.
Qed.

(** ** Pixels, rows and columns *)

Lemma odd_mod2 val : (val mod 2 =? 1) = Z.odd val.
Proof. rewrite Zmod_odd. by destruct (Z.odd val). Qed.

Lemma set_word_bit old c i :
  0 ≤ c → 0 ≤ i < 16 →
  Z.testbit (to_uint16 (Z.lor old (Z.shiftl 1 c))) i = Z.testbit old i || (c =? i).
Proof.
  intros Hc Hi. rewrite to_uint16_testbit, Z.lor_spec, testbit_one_shiftl by lia.
  by destruct (Z.ltb_spec i 16); [| lia].
Qed.

Lemma clear_word_bit old c i :
  0 ≤ c → 0 ≤ i < 16 →
  Z.testbit (to_uint16 (Z.land old (Z.lnot (Z.shiftl 1 c)))) i
  = Z.testbit old i && negb (c =? i).
Proof.
  intros Hc Hi.
  rewrite to_uint16_testbit, Z.land_spec, Z.lnot_spec, testbit_one_shiftl by lia.
  by destruct (Z.ltb_spec i 16); [| lia].
Qed.

(** The word [setPixel] stores: bit [c] becomes [Z.odd val], the other
    fifteen bits stay. *)
Lemma setPixel_word_bit old c val i :
  0 ≤ c → 0 ≤ i < 16 →
  Z.testbit (to_uint16 (if val mod 2 =? 1
                        then Z.lor old (Z.shiftl 1 c)
                        else Z.land old (Z.lnot (Z.shiftl 1 c)))) i
  = if c =? i then Z.odd val else Z.testbit old i.
Proof.
  intros Hc Hi. rewrite odd_mod2. destruct (Z.odd val).
  - rewrite set_word_bit by done. destruct (c =? i); [apply orb_true_r | apply orb_false_r].
  - rewrite clear_word_bit by done. destruct (c =? i); [apply andb_false_r | apply andb_true_r].
Qed.

Lemma mod_8_range x : 0 ≤ x mod 8 < 8.
Proof. apply Z.mod_pos_bound. lia. Qed.

Lemma mod_16_range x : 0 ≤ x mod 16 < 16.
Proof. apply Z.mod_pos_bound. lia. Qed.

(** X2. On an allocated buffer [setPixel] never fails, whatever its three
    arguments: the pixel at column [col mod 16] of row [row mod 8] becomes
    bit 0 of [val], and no other pixel changes. *)
Theorem setPixel_writes_one_pixel (col row val : Z) (w : World) :
  length (_buffer (chip w)) = 8%nat →
  ∃ b',
    setPixel col row val w = Some (tt, with_buffer b' w) ∧
    length b' = 8%nat ∧
    pixel (with_buffer b' w) (col mod 16) (row mod 8) = Some (Z.odd val) ∧
    (∀ c r, 0 ≤ c < 16 → (c, r) ≠ (col mod 16, row mod 8) →
       pixel (with_buffer b' w) c r = pixel w c r).
Proof.
  intros Hlen.
  pose proof (mod_8_range row) as Hr. pose proof (mod_16_range col) as Hc.
  destruct (lookup_lt_is_Some_2 (_buffer (chip w)) (Z.to_nat (row mod 8)))
    as [old Hold]; [lia |].
  eexists. split; [apply (setPixel_run col row val w old Hold) |].
  split; [by rewrite length_insert |]. split.
  - rewrite pixel_with_buffer, array_load_run, list_lookup_insert_eq by lia. cbn.
    by rewrite setPixel_word_bit, Z.eqb_refl by lia.
  - intros c r Hcr Hne. rewrite pixel_with_buffer. unfold pixel, array_load.
    destruct (Z.ltb_spec r 0); [done |].
    destruct (decide (r = row mod 8)) as [-> | Hrow].
    + rewrite list_lookup_insert_eq, Hold by lia. cbn.
      rewrite setPixel_word_bit by lia.
      by destruct (Z.eqb_spec (col mod 16) c) as [<- | _].
    + by rewrite list_lookup_insert_ne by lia.
Qed.

Lemma setPixel_writes_one_pixel_witness :
  let w := mkWorld (mkHT16K33 0x70 [0; 0; 0; 0; 0; 0; 0; 0] false false false)
                   (mkTwoWire [] [] []) in
  ∃ b',
    setPixel 35 (-1) 7 w = Some (tt, with_buffer b' w) ∧
    length b' = 8%nat ∧
    pixel (with_buffer b' w) (35 mod 16) (-1 mod 8) = Some (Z.odd 7) ∧
    (∀ c r, 0 ≤ c < 16 → (c, r) ≠ (35 mod 16, -1 mod 8) →
       pixel (with_buffer b' w) c r = pixel w c r).
Proof. intros w. apply (setPixel_writes_one_pixel 35 (-1) 7 w). reflexivity. Defined.

Lemma to_uint8_mod_16 x : to_uint8 x mod 16 = x mod 16.
Proof.
  rewrite <- (mask_0F (to_uint8 x)), <- (mask_0F x).
  by rewrite (to_uint8_small (to_uint8 x)) by apply to_uint8_range.
Qed.

(** X3. [setPixel] coerces its arguments instead of rejecting them: a call
    is the same as the call with [col mod 16], [row mod 8] and [val mod 2],
    in every state. *)
Theorem setPixel_coerces_arguments (col row val : Z) (w : World) :
  setPixel col row val w = setPixel (col mod 16) (row mod 8) (val mod 2) w.
Proof.
  unfold setPixel. cbv zeta. rewrite !mask_0F, !mask_07, !mask_01.
  by rewrite !Z.mod_mod by lia.
Qed.

Lemma setRow_run row value w :
  length (_buffer (chip w)) = 8%nat →
  setRow row value w =
  Some (tt, with_buffer (<[Z.to_nat (row mod 8) := value mod 65536]> (_buffer (chip w))) w).
Proof.
  intros Hlen. pose proof (mod_8_range row) as Hr.
  unfold setRow. cbv zeta. rewrite mask_07.
  unfold write_buffer, bind, gets, lift, modify. cbv beta iota.
  rewrite array_store_run by lia. unfold to_uint16.
  by rewrite Z.mod_mod by lia.
Qed.

(** X4. On an allocated buffer [setRow] replaces row [row mod 8] by
    [value] cut to 16 bits, and leaves every other row as it was. *)
Theorem setRow_replaces_row (row value : Z) (w : World) :
  length (_buffer (chip w)) = 8%nat →
  ∃ b',
    setRow row value w = Some (tt, with_buffer b' w) ∧
    length b' = 8%nat ∧
    array_load b' (row mod 8) = Some (value mod 65536) ∧
    (∀ r, r ≠ row mod 8 → array_load b' r = array_load (_buffer (chip w)) r).
Proof.
  intros Hlen. pose proof (mod_8_range row) as Hr.
  exists (<[Z.to_nat (row mod 8) := value mod 65536]> (_buffer (chip w))).
  split; [| split; [by rewrite length_insert | split]].
  - by apply setRow_run.
  - by rewrite array_load_run, list_lookup_insert_eq by lia.
  - intros r Hne. unfold array_load. destruct (Z.ltb_spec r 0); [done |].
    by rewrite list_lookup_insert_ne by lia.
Qed.

Lemma setRow_replaces_row_witness :
  let w := mkWorld (mkHT16K33 0x70 [1; 2; 3; 4; 5; 6; 7; 8] false false false)
                   (mkTwoWire [] [] []) in
  ∃ b',
    setRow 10 0x12345 w = Some (tt, with_buffer b' w) ∧
    length b' = 8%nat ∧
    array_load b' (10 mod 8) = Some (0x12345 mod 65536) ∧
    (∀ r, r ≠ 10 mod 8 → array_load b' r = array_load (_buffer (chip w)) r).
Proof. intros w. apply (setRow_replaces_row 10 0x12345 w). reflexivity. Defined.

Lemma land_shiftl_1_pos v k : 0 ≤ k → (0 <? Z.land v (Z.shiftl 1 k)) = Z.testbit v k.
Proof.
  intros Hk.
  assert (Hland : Z.land v (Z.shiftl 1 k) = if Z.testbit v k then 2 ^ k else 0).
  { apply Z.bits_inj'. intros i Hi. rewrite Z.land_spec, testbit_one_shiftl by done.
    destruct (Z.eqb_spec k i) as [<- | Hne].
    - destruct (Z.testbit v k); [by rewrite Z.pow2_bits_true | by rewrite Z.bits_0].
    - rewrite andb_false_r.
      destruct (Z.testbit v k); [by rewrite Z.pow2_bits_false | by rewrite Z.bits_0]. }
  rewrite Hland. destruct (Z.testbit v k); [| done].
  apply Z.ltb_lt. by apply Z.pow_pos_nonneg.
Qed.

Lemma odd_b2z f : Z.odd (Z.b2z f) = f.
Proof. by destruct f. Qed.

Lemma column_inv_init col value w :
  length (_buffer (chip w)) = 8%nat →
  column_inv col value (_buffer (chip w)) w 0 w.
Proof.
  intros Hlen. exists (_buffer (chip w)).
  split; [by rewrite with_buffer_id |]. split; [done |]. split; [done |].
  intros c r _ Hr. destruct (Z.ltb_spec r 0); [lia |]. by rewrite andb_false_r.
Qed.

Lemma column_inv_step col value b w k w' :
  0 ≤ k < 8 →
  column_inv (col mod 16) value b w k w' →
  ∃ w'',
    setPixel (to_uint8 col) k (Z.b2z (0 <? Z.land value (Z.shiftl 1 k))) w'
    = Some (tt, w'') ∧
    column_inv (col mod 16) value b w (k + 1) w''.
Proof.
  intros Hk (b' & -> & Hlen & Hwf & Hbits).
  pose proof (mod_16_range col) as Hc.
  destruct (lookup_lt_is_Some_2 b' (Z.to_nat k)) as [old Hold]; [lia |].
  eexists. split.
  { apply (setPixel_run _ _ _ (with_buffer b' w) old).
    cbn. by rewrite Z.mod_small by lia. }
  rewrite (Z.mod_small k 8), to_uint8_mod_16 by lia.
  eexists. split; [reflexivity |]. cbn [chip with_buffer set_buffer _buffer].
  split; [by rewrite length_insert |]. split.
  { intros Hb. apply Forall_insert; [by apply Hwf | apply to_uint16_range]. }
  intros c r Hcr Hr.
  destruct (decide (r = k)) as [-> | Hne].
  - rewrite list_lookup_total_insert_eq by lia.
    rewrite setPixel_word_bit, odd_b2z, land_shiftl_1_pos by lia.
    rewrite <- (list_lookup_total_correct b' _ _ Hold), Hbits by lia.
    rewrite (Z.eqb_sym c).
    destruct (col mod 16 =? c), (Z.ltb_spec k (k + 1)), (Z.ltb_spec k k);
      (done || lia).
  - rewrite list_lookup_total_insert_ne by lia. rewrite Hbits by lia.
    by destruct (c =? col mod 16), (Z.ltb_spec r (k + 1)), (Z.ltb_spec r k);
      try lia.
Qed.

Lemma setColumn_inv col value w :
  length (_buffer (chip w)) = 8%nat →
  ∃ w', setColumn col value w = Some (tt, w') ∧
        column_inv (col mod 16) (to_uint8 value) (_buffer (chip w)) w 8 w'.
Proof.
  intros Hlen. unfold setColumn. cbv zeta.
  apply (for_inv (column_inv (col mod 16) (to_uint8 value) (_buffer (chip w)) w)
           (λ row, setPixel (to_uint8 col) row
                     (Z.b2z (0 <? Z.land (to_uint8 value) (Z.shiftl 1 row))))
           8 w).
  - by apply column_inv_init.
  - intros k w' Hk Hinv. apply column_inv_step; [lia | done].
Qed.

(** X5. On an allocated buffer [setColumn] never fails: afterwards column
    [col mod 16] shows, in rows 0 to 7, bits 0 to 7 of [value], and every
    other column is as it was. *)
Theorem setColumn_writes_column (col value : Z) (w : World) :
  length (_buffer (chip w)) = 8%nat →
  ∃ b',
    setColumn col value w = Some (tt, with_buffer b' w) ∧
    length b' = 8%nat ∧
    (∀ r, 0 ≤ r < 8 →
       pixel (with_buffer b' w) (col mod 16) r = Some (Z.testbit value r)) ∧
    (∀ c r, 0 ≤ c < 16 → c ≠ col mod 16 →
       pixel (with_buffer b' w) c r = pixel w c r).
Proof.
  intros Hlen. pose proof (mod_16_range col) as Hc.
  destruct (setColumn_inv col value w Hlen) as (w' & Hrun & b' & -> & Hlen' & _ & Hbits).
  exists b'. split; [done |]. split; [done |]. split.
  - intros r Hr.
    destruct (lookup_lt_is_Some_2 b' (Z.to_nat r)) as [word Hword]; [lia |].
    rewrite (pixel_lookup _ _ r word) by (done || lia).
    rewrite <- (list_lookup_total_correct _ _ _ Hword), Hbits by lia.
    rewrite Z.eqb_refl. destruct (Z.ltb_spec r 8); [| lia]. cbn.
    rewrite to_uint8_testbit. by destruct (Z.ltb_spec r 8); [| lia].
  - intros c r Hcr Hne. unfold pixel, array_load. cbn [chip with_buffer set_buffer _buffer].
    destruct (Z.ltb_spec r 0); [done |].
    destruct (Z.lt_ge_cases r 8) as [Hr | Hr].
    + destruct (lookup_lt_is_Some_2 b' (Z.to_nat r)) as [x Hx]; [lia |].
      destruct (lookup_lt_is_Some_2 (_buffer (chip w)) (Z.to_nat r)) as [y Hy]; [lia |].
      rewrite Hx, Hy. cbn. f_equal.
      rewrite <- (list_lookup_total_correct _ _ _ Hx),
        <- (list_lookup_total_correct _ _ _ Hy), Hbits by lia.
      by destruct (Z.eqb_spec c (col mod 16)).
    + by rewrite !lookup_ge_None_2 by lia.
Qed.

Lemma setColumn_writes_column_witness :
  let w := mkWorld (mkHT16K33 0x70 [1; 2; 3; 4; 5; 6; 7; 8] false false false)
                   (mkTwoWire [] [] []) in
  ∃ b',
    setColumn 18 0xA5 w = Some (tt, with_buffer b' w) ∧
    length b' = 8%nat ∧
    (∀ r, 0 ≤ r < 8 →
       pixel (with_buffer b' w) (18 mod 16) r = Some (Z.testbit 0xA5 r)) ∧
    (∀ c r, 0 ≤ c < 16 → c ≠ 18 mod 16 →
       pixel (with_buffer b' w) c r = pixel w c r).
Proof. intros w. apply (setColumn_writes_column 18 0xA5 w). reflexivity. Defined.

(** ** No access outside the buffer *)

Lemma drawSprite16_inv sprite co ro w :
  length (_buffer (chip w)) = 8%nat → to_uint8 co < 16 →
  ∃ w', drawSprite16 sprite co ro w = Some (tt, w') ∧
        draw_inv sprite (to_uint8 co) (to_uint8 ro) w (to_uint8 (height sprite)) w'.
Proof.
  intros Hlen Hco. unfold drawSprite16. cbv zeta.
  pose proof (to_uint8_range (height sprite)) as Hh.
  pose proof (to_uint8_range ro) as Hro.
  destruct (for_inv (draw_inv sprite (to_uint8 co) (to_uint8 ro) w)
              (λ row,
                 let i := Z.land (row + to_uint8 ro) 0x07 in
                 shifted <- lift (shift_left (readRow sprite row) (to_uint8 co)) ;;
                 old <- read_buffer i ;;
                 write_buffer i (Z.lor old (Z.land shifted 0xFFFF)))
              (Z.to_nat (to_uint8 (height sprite))) w)
    as (w' & Hrun & Hinv).
  { by apply draw_inv_init. }
  { intros k w' Hk Hinv. apply draw_inv_step; [lia | lia | done | done]. }
  rewrite Z2Nat.id in Hrun, Hinv by lia.
  exists w'. split; [exact Hrun | exact Hinv].
Qed.

Lemma wf_with_buffer b w :
  length b = 8%nat → Forall is_uint16 b → wf_buffer (with_buffer b w).
Proof. by split. Qed.

(** X6. Once the buffer is allocated, no buffer operation can reach outside
    it or leave a word wider than 16 bits, whatever arguments it is given:
    [setPixel], [setRow], [setColumn], [clear] and [drawSprite16] (with a
    column offset below 16, where its shift is defined) all return, change
    nothing but the buffer, and leave it allocated. *)
Theorem buffer_ops_stay_in_bounds (w : World) :
  wf_buffer w →
  (∀ col row val, in_bounds_run (setPixel col row val) w) ∧
  (∀ row value, in_bounds_run (setRow row value) w) ∧
  (∀ col value, in_bounds_run (setColumn col value) w) ∧
  in_bounds_run clear w ∧
  (∀ sprite colOffset rowOffset,
     to_uint8 colOffset < 16 →
     in_bounds_run (drawSprite16 sprite colOffset rowOffset) w).
Proof.
  intros [Hlen Hwf]. repeat split.
  - intros col row val. pose proof (mod_8_range row) as Hr.
    destruct (lookup_lt_is_Some_2 (_buffer (chip w)) (Z.to_nat (row mod 8)))
      as [old Hold]; [lia |].
    eexists. split; [apply (setPixel_run col row val w old Hold) |].
    apply wf_with_buffer; [by rewrite length_insert |].
    apply Forall_insert; [done | apply to_uint16_range].
  - intros row value. eexists. split; [by apply setRow_run |].
    apply wf_with_buffer; [by rewrite length_insert |].
    apply Forall_insert; [done |]. apply Z.mod_pos_bound. lia.
  - intros col value.
    destruct (setColumn_inv col value w Hlen) as (w' & Hrun & b' & -> & Hlen' & Hwf' & _).
    exists b'. split; [done |]. apply wf_with_buffer; [done | by apply Hwf'].
  - eexists. split; [by apply clear_run |].
    apply wf_with_buffer; [done |]. by repeat constructor.
  - intros sprite co ro Hco.
    destruct (drawSprite16_inv sprite co ro w Hlen Hco)
      as (w' & Hrun & b' & -> & Hlen' & Hwf' & _).
    exists b'. split; [done |]. apply wf_with_buffer; [done | by apply Hwf'].
Qed.

Lemma buffer_ops_stay_in_bounds_witness :
  let w := mkWorld (mkHT16K33 0x70 [1; 2; 3; 4; 5; 6; 7; 0xFFFF] false true false)
                   (mkTwoWire [] [] []) in
  in_bounds_run (setPixel 300 (-9) 255) w ∧
  in_bounds_run (setRow 999 (-1)) w ∧
  in_bounds_run (setColumn 16 256) w ∧
  in_bounds_run clear w ∧
  in_bounds_run (drawSprite16 (mkSprite16 200 (λ r, r * 0x0101)) 7 255) w.
Proof.
  intros w.
  assert (Hwf : wf_buffer w).
  { split; [reflexivity | repeat constructor; unfold is_uint16; lia]. }
  destruct (buffer_ops_stay_in_bounds w Hwf) as (Hp & Hr & Hc & Hcl & Hs).
  split; [apply Hp | split; [apply Hr | split; [apply Hc | split; [apply Hcl |]]]].
  apply Hs. reflexivity.
Defined.

(** ** What [write] puts on the bus *)

Section WriteFrame.
Context {hdr : Header}.

(** [write] on an allocated buffer: the command, then the bytes of the
    physical rows 0 to 7 in this order, then the end of the transmission. *)
Lemma write_data w :
  length (_buffer (chip w)) = 8%nat →
  write w =
  Some (tt, transmit ([BeginTransmission (to_uint8 (_i2c_addr (chip w)));
                       WriteByte (to_uint8 HT16K33_CMD_RAM)]
                      ++ (WriteByte <$> flat_map (row_bytes (chip w)) (seqZ 0 8))
                      ++ [EndTransmission]) w).
Proof.
  intros Hlen. unfold write, for_.
  unfold bind at 1 2 3, gets, Wire_beginTransmission, Wire_write. rewrite !emit_run.
  unfold bind.
  rewrite (for_fold_transmit writeRow (λ row, WriteByte <$> row_bytes (chip w) row)).
  - unfold Wire_endTransmission. rewrite emit_run, !transmit_transmit.
    by rewrite flat_map_fmap.
  - intros i w' Hi Hw'. apply elem_of_seqZ in Hi.
    rewrite !chip_transmit in Hw'.
    destruct (buffer_row_exists (_buffer (chip w)) (_vFlipped (chip w)) i Hlen)
      as [word Hword]; [lia |].
    rewrite (writeRow_run w' i word); [| lia | by rewrite Hw'].
    rewrite Hw'. unfold row_bytes.
    rewrite (list_lookup_total_correct _ _ _ Hword).
    by destruct (_reversed (chip w)).
Qed.

Lemma row_bytes_length c row : length (row_bytes c row) = 2%nat.
Proof. unfold row_bytes. by destruct (_reversed c). Qed.

Lemma row_bytes_are_bytes c row : Forall (λ b, 0 ≤ b < 256) (row_bytes c row).
Proof.
  unfold row_bytes. destruct (_reversed c); repeat constructor; apply to_uint8_range.
Qed.

(** X7. [write] only reads the driver's state: on an allocated buffer it
    sends one frame of 19 bus events carrying 16 data bytes, each in 0..255,
    and a second [write] sends the very same frame again. *)
Theorem write_is_repeatable (w : World) :
  length (_buffer (chip w)) = 8%nat →
  ∃ data,
    let frame := [BeginTransmission (to_uint8 (_i2c_addr (chip w)));
                  WriteByte (to_uint8 HT16K33_CMD_RAM)]
                 ++ (WriteByte <$> data) ++ [EndTransmission] in
    length data = 16%nat ∧
    Forall (λ b, 0 ≤ b < 256) data ∧
    write w = Some (tt, transmit frame w) ∧
    (write ;; write) w = Some (tt, transmit (frame ++ frame) w).
Proof.
  intros Hlen. exists (flat_map (row_bytes (chip w)) (seqZ 0 8)). cbv zeta.
  split; [| split; [| split]].
  - rewrite (flat_map_constant_length (c := 2)); [done |].
    intros x _. apply row_bytes_length.
  - apply Forall_forall. intros b Hb.
    apply list_elem_of_In, in_flat_map in Hb as (row & _ & Hb).
    pose proof (row_bytes_are_bytes (chip w) row) as Hall.
    rewrite Forall_forall in Hall. apply Hall. by apply list_elem_of_In.
  - by apply write_data.
  - rewrite (bind_run _ _ _ _ _ (write_data w Hlen)).
    rewrite write_data by done. by rewrite transmit_transmit.
Qed.

End WriteFrame.

Lemma write_is_repeatable_witness :
  let w := mkWorld (mkHT16K33 0x70 [1; 2; 3; 4; 5; 6; 7; 0xFF00] true true true)
                   (mkTwoWire [] [] []) in
  ∃ data,
    let frame := [BeginTransmission 0x70; WriteByte 0x00]
                 ++ (WriteByte <$> data) ++ [EndTransmission] in
    length data = 16%nat ∧
    Forall (λ b, 0 ≤ b < 256) data ∧
    write (hdr := datasheet) w = Some (tt, transmit frame w) ∧
    (write (hdr := datasheet) ;; write (hdr := datasheet)) w
      = Some (tt, transmit (frame ++ frame) w).
Proof.
  intros w. apply (write_is_repeatable (hdr := datasheet) w). reflexivity.
Defined.

(** ** Orientation flags as buffer transformations *)

Lemma flat_map_ext_elem {A B} (f g : A → list B) (l : list A) :
  (∀ x, x ∈ l → f x = g x) → flat_map f l = flat_map g l.
Proof.
  induction l as [| x l IH]; intros Hfg; [done |]. cbn [flat_map].
  rewrite (Hfg x) by apply list_elem_of_here.
  rewrite IH; [done |]. intros y Hy. apply Hfg. by apply list_elem_of_further.
Qed.

Lemma reverse_lookup_total_8 (b : list Z) r :
  length b = 8%nat → 0 ≤ r < 8 →
  list.reverse b !!! Z.to_nat r = b !!! Z.to_nat (7 - r).
Proof.
  intros Hlen Hr. rewrite !list_lookup_total_alt, reverse_lookup by lia.
  do 2 f_equal. lia.
Qed.

Lemma swap_bytes_range x : is_uint16 x → is_uint16 (swap_bytes x).
Proof.
  unfold is_uint16, swap_bytes. intros Hx.
  pose proof (Z.mod_pos_bound x 256). 
  assert (0 ≤ x / 256 < 256).
  { split; [apply Z.div_pos; lia | apply Z.div_lt_upper_bound; lia]. }
  lia.
Qed.

Lemma swap_bytes_high x : is_uint16 x → swap_bytes x / 256 = x mod 256.
Proof.
  unfold is_uint16, swap_bytes. intros Hx.
  assert (0 ≤ x / 256 < 256).
  { split; [apply Z.div_pos; lia | apply Z.div_lt_upper_bound; lia]. }
  rewrite Z.div_add_l by lia. rewrite (Z.div_small (x / 256)) by lia. lia.
Qed.

Lemma swap_bytes_low x : is_uint16 x → swap_bytes x mod 256 = x / 256.
Proof.
  unfold is_uint16, swap_bytes. intros Hx.
  assert (0 ≤ x / 256 < 256).
  { split; [apply Z.div_pos; lia | apply Z.div_lt_upper_bound; lia]. }
  rewrite Z.add_comm, Z.mod_add by lia. by apply Z.mod_small.
Qed.

Lemma swap_bytes_testbit x i :
  is_uint16 x → 0 ≤ i < 16 →
  Z.testbit (swap_bytes x) i = Z.testbit x (if i <? 8 then i + 8 else i - 8).
Proof.
  intros Hx Hi. unfold is_uint16 in Hx.
  assert (Hhi : 0 ≤ x / 256 < 256).
  { split; [apply Z.div_pos; lia | apply Z.div_lt_upper_bound; lia]. }
  pose proof (Z.mod_pos_bound x 256) as Hlo.
  replace (swap_bytes x) with (x / 256 + 256 * (x mod 256)) by (unfold swap_bytes; lia).
  rewrite <- word_of_bytes by lia.
  rewrite to_uint16_testbit, Z.lor_spec, to_uint16_testbit.
  destruct (Z.ltb_spec i 16); [| lia]. cbn.
  change 256 with (2 ^ 8).
  destruct (Z.ltb_spec i 8).
  - rewrite Z.shiftl_spec_low by lia. cbn.
    by rewrite Z.div_pow2_bits by lia.
  - rewrite Z.shiftl_spec, Z.mod_pow2_bits_low by lia.
    rewrite Z.div_pow2_bits by lia.
    rewrite (uint16_testbit_high x (i + 8)) by lia. apply orb_false_r.
Qed.

(** Mirroring the bits and exchanging the bytes of a word commute. *)
Lemma flip_swap_bytes x :
  is_uint16 x → _flip_uint16 (swap_bytes x) = swap_bytes (_flip_uint16 x).
Proof.
  intros Hx. pose proof (flip_uint16_range x) as Hf.
  apply uint16_bits_eq; [apply flip_uint16_range | by apply swap_bytes_range |].
  intros i Hi.
  rewrite flip_uint16_testbit by lia.
  rewrite (swap_bytes_testbit x) by (done || lia).
  rewrite (swap_bytes_testbit (_flip_uint16 x)) by done.
  rewrite flip_uint16_testbit by (destruct (Z.ltb_spec i 8); lia).
  destruct (Z.ltb_spec i 16); [| lia].
  destruct (Z.ltb_spec i 8), (Z.ltb_spec (15 - i) 8); try lia.
  - destruct (Z.ltb_spec (i + 8) 16); [| lia]. cbn. f_equal. lia.
  - destruct (Z.ltb_spec (i - 8) 16); [| lia]. cbn. f_equal. lia.
Qed.

Section OrientationAsTransform.
Context {hdr : Header}.

Lemma bus_after_write w :
  length (_buffer (chip w)) = 8%nat →
  bus_after (write w) =
  Some (bus (wire w)
        ++ [BeginTransmission (to_uint8 (_i2c_addr (chip w)));
            WriteByte (to_uint8 HT16K33_CMD_RAM)]
        ++ (WriteByte <$> flat_map (row_bytes (chip w)) (seqZ 0 8))
        ++ [EndTransmission]).
Proof. intros Hlen. by rewrite write_data. Qed.

(** X8. Vertical flipping is row reversal: with [_vFlipped] set, [write]
    sends exactly what it sends with the flag clear and the eight buffer
    rows in reverse order. *)
Theorem write_vFlipped_is_reversed_buffer
    (addr : Z) (b : list Z) (rv hf : bool) (t : TwoWire) :
  length b = 8%nat →
  is_Some (bus_after (write (mkWorld (mkHT16K33 addr b rv true hf) t))) ∧
  bus_after (write (mkWorld (mkHT16K33 addr b rv true hf) t)) =
  bus_after (write (mkWorld (mkHT16K33 addr (list.reverse b) rv false hf) t)).
Proof.
  intros Hlen.
  rewrite !bus_after_write by (cbn; by rewrite ?length_reverse).
  split; [done |]. cbn [chip wire bus _i2c_addr].
  rewrite (flat_map_ext_elem (row_bytes (mkHT16K33 addr b rv true hf))
             (row_bytes (mkHT16K33 addr (list.reverse b) rv false hf))); [done |].
  intros r Hr. apply elem_of_seqZ in Hr.
  unfold row_bytes. cbn [_buffer _vFlipped _hFlipped _reversed].
  by rewrite reverse_lookup_total_8 by lia.
Qed.

(** X9. Horizontal flipping is bit reversal of the rows: with [_hFlipped]
    set, [write] sends exactly what it sends with the flag clear and every
    buffer row replaced by its bit-reversed word. *)
Theorem write_hFlipped_is_flipped_rows
    (addr : Z) (b : list Z) (rv vf : bool) (t : TwoWire) :
  length b = 8%nat →
  is_Some (bus_after (write (mkWorld (mkHT16K33 addr b rv vf true) t))) ∧
  bus_after (write (mkWorld (mkHT16K33 addr b rv vf true) t)) =
  bus_after (write (mkWorld (mkHT16K33 addr (_flip_uint16 <$> b) rv vf false) t)).
Proof.
  intros Hlen.
  rewrite !bus_after_write by (cbn; by rewrite ?length_fmap).
  split; [done |]. cbn [chip wire bus _i2c_addr].
  rewrite (flat_map_ext_elem (row_bytes (mkHT16K33 addr b rv vf true))
             (row_bytes (mkHT16K33 addr (_flip_uint16 <$> b) rv vf false))); [done |].
  intros r Hr. apply elem_of_seqZ in Hr.
  unfold row_bytes. cbn [_buffer _vFlipped _hFlipped _reversed].
  by rewrite (list_lookup_total_fmap _flip_uint16 b) by (destruct vf; lia).
Qed.

(** X10. [reverse()] exchanges the two bytes of every row: with [_reversed]
    set, [write] sends exactly what it sends with the flag clear and the
    two bytes of every buffer word exchanged. *)
Theorem write_reversed_is_swapped_bytes
    (addr : Z) (b : list Z) (vf hf : bool) (t : TwoWire) :
  length b = 8%nat → Forall is_uint16 b →
  is_Some (bus_after (write (mkWorld (mkHT16K33 addr b true vf hf) t))) ∧
  bus_after (write (mkWorld (mkHT16K33 addr b true vf hf) t)) =
  bus_after (write (mkWorld (mkHT16K33 addr (swap_bytes <$> b) false vf hf) t)).
Proof.
  intros Hlen Hwf.
  rewrite !bus_after_write by (cbn; by rewrite ?length_fmap).
  split; [done |]. cbn [chip wire bus _i2c_addr].
  rewrite (flat_map_ext_elem (row_bytes (mkHT16K33 addr b true vf hf))
             (row_bytes (mkHT16K33 addr (swap_bytes <$> b) false vf hf))); [done |].
  intros r Hr. apply elem_of_seqZ in Hr.
  unfold row_bytes. cbn [_buffer _vFlipped _hFlipped _reversed].
  rewrite (list_lookup_total_fmap swap_bytes b) by (destruct vf; lia).
  set (i := Z.to_nat (if vf then 7 - r else r)).
  assert (Hword : is_uint16 (b !!! i)).
  { destruct (lookup_lt_is_Some_2 b i) as [x Hx]; [unfold i; destruct vf; lia |].
    rewrite (list_lookup_total_correct _ _ _ Hx).
    eapply Forall_lookup_1 in Hwf; [apply Hwf | apply Hx]. }
  set (out := if hf then _flip_uint16 (b !!! i) else b !!! i).
  assert (Hout : is_uint16 out).
  { unfold out. destruct hf; [apply flip_uint16_range | done]. }
  replace (if hf then _flip_uint16 (swap_bytes (b !!! i)) else swap_bytes (b !!! i))
    with (swap_bytes out)
    by (unfold out; destruct hf; [by rewrite flip_swap_bytes | done]).
  rewrite !low_byte, !high_byte by (done || by apply swap_bytes_range).
  by rewrite swap_bytes_low, swap_bytes_high.
Qed.

End OrientationAsTransform.

Lemma write_vFlipped_is_reversed_buffer_witness :
  let t := mkTwoWire [] [] [] in
  let b := [1; 2; 3; 4; 5; 6; 7; 0x8000] in
  is_Some (bus_after (write (hdr := datasheet) (mkWorld (mkHT16K33 0x70 b true true true) t))) ∧
  bus_after (write (hdr := datasheet) (mkWorld (mkHT16K33 0x70 b true true true) t)) =
  bus_after (write (hdr := datasheet)
               (mkWorld (mkHT16K33 0x70 (list.reverse b) true false true) t)).
Proof.
  intros t b.
  apply (write_vFlipped_is_reversed_buffer (hdr := datasheet) 0x70 b true true t).
  reflexivity.
Defined.

Lemma write_hFlipped_is_flipped_rows_witness :
  let t := mkTwoWire [] [] [] in
  let b := [1; 2; 3; 4; 5; 6; 7; 0x8000] in
  is_Some (bus_after (write (hdr := datasheet) (mkWorld (mkHT16K33 0x70 b false true true) t))) ∧
  bus_after (write (hdr := datasheet) (mkWorld (mkHT16K33 0x70 b false true true) t)) =
  bus_after (write (hdr := datasheet)
               (mkWorld (mkHT16K33 0x70 (_flip_uint16 <$> b) false true false) t)).
Proof.
  intros t b.
  apply (write_hFlipped_is_flipped_rows (hdr := datasheet) 0x70 b false true t).
  reflexivity.
Defined.

Lemma write_reversed_is_swapped_bytes_witness :
  let t := mkTwoWire [] [] [] in
  let b := [1; 2; 3; 4; 5; 6; 7; 0x8000] in
  is_Some (bus_after (write (hdr := datasheet) (mkWorld (mkHT16K33 0x70 b true false true) t))) ∧
  bus_after (write (hdr := datasheet) (mkWorld (mkHT16K33 0x70 b true false true) t)) =
  bus_after (write (hdr := datasheet)
               (mkWorld (mkHT16K33 0x70 (swap_bytes <$> b) false false true) t)).
Proof.
  intros t b.
  apply (write_reversed_is_swapped_bytes (hdr := datasheet) 0x70 b false true t).
  - reflexivity.
  - repeat constructor; unfold is_uint16; lia.
Defined.

(** ** Reading the frame back *)

Lemma decode_le_row lo hi rest :
  decode_le (lo :: hi :: rest) = (lo + 256 * hi) :: decode_le rest.
Proof. reflexivity. Qed.

Lemma decode_le_plain_rows (b : list Z) :
  Forall is_uint16 b →
  decode_le (flat_map (λ word, [to_uint8 (Z.land word 0xFF); to_uint8 (Z.shiftr word 8)]) b)
  = b.
Proof.
  induction 1 as [| word b Hword _ IH]; [done |].
  cbn [flat_map app]. rewrite decode_le_row, IH. f_equal.
  rewrite low_byte, high_byte by done.
  rewrite (Z.div_mod word 256) at 3 by lia. lia.
Qed.

Section ReadBack.
Context {hdr : Header}.

(** X11. With no orientation flag set, the frame [write] sends is the
    little-endian image of the buffer: decoding its 16 data bytes low byte
    first gives back the eight buffer rows, in order. *)
Theorem write_plain_frame_decodes_to_buffer (addr : Z) (b : list Z) (t : TwoWire) :
  length b = 8%nat → Forall is_uint16 b →
  let w := mkWorld (mkHT16K33 addr b false false false) t in
  ∃ data,
    write w = Some (tt, transmit ([BeginTransmission (to_uint8 addr);
                                   WriteByte (to_uint8 HT16K33_CMD_RAM)]
                                  ++ (WriteByte <$> data) ++ [EndTransmission]) w) ∧
    decode_le data = b.
Proof.
  intros Hlen Hwf w.
  exists (flat_map (row_bytes (chip w)) (seqZ 0 8)).
  split; [by apply write_data |].
  transitivity
    (decode_le (flat_map (λ word, [to_uint8 (Z.land word 0xFF);
                                   to_uint8 (Z.shiftr word 8)]) b));
    [| by apply decode_le_plain_rows].
  f_equal. unfold w. clear w Hwf.
  do 8 (destruct b as [| ? b]; [discriminate Hlen |]).
  destruct b; [| discriminate Hlen]. reflexivity.
Qed.

End ReadBack.

Lemma write_plain_frame_decodes_to_buffer_witness :
  let b := [1; 0x0203; 3; 4; 0xFFFF; 6; 7; 0x8000] in
  let w := mkWorld (mkHT16K33 0x70 b false false false) (mkTwoWire [] [] []) in
  ∃ data,
    write (hdr := datasheet) w =
      Some (tt, transmit ([BeginTransmission (to_uint8 0x70);
                           WriteByte (to_uint8 (HT16K33_CMD_RAM (Header := datasheet)))]
                          ++ (WriteByte <$> data) ++ [EndTransmission]) w) ∧
    decode_le data = b.
Proof.
  intros b w.
  apply (write_plain_frame_decodes_to_buffer (hdr := datasheet) 0x70 b (mkTwoWire [] [] [])).
  - reflexivity.
  - repeat constructor; unfold is_uint16; lia.
Defined.

(** ** Commands *)

Lemma to_uint8_idem x : to_uint8 (to_uint8 x) = to_uint8 x.
Proof. apply to_uint8_small, to_uint8_range. Qed.

Lemma testbit_1 i : Z.testbit 1 i = (0 =? i).
Proof. change 1 with (2 ^ 0). by apply Z.pow2_bits_eqb. Qed.

Lemma array_store_out (a : list Z) i v :
  Z.of_nat (length a) ≤ i → array_store a i v = None.
Proof.
  intros Hi. unfold array_store.
  destruct (Z.ltb_spec i (Z.of_nat (length a))); [lia |]. by rewrite andb_false_r.
Qed.

Section Commands.
Context {hdr : Header}.

Lemma init_run_full (addr : Z) (w : World) :
  let a := to_uint8 addr in
  init addr w =
  Some (tt, mkWorld (mkHT16K33 a (replicate 8 0) false false false)
              (mkTwoWire
                 (bus (wire w)
                  ++ [WireBegin;
                      BeginTransmission a;
                      WriteByte (to_uint8 (Z.lor HT16K33_CMD_SYSTEM 0x01));
                      EndTransmission;
                      BeginTransmission a;
                      WriteByte (to_uint8 (Z.lor (Z.lor HT16K33_CMD_SETUP HT16K33_DISPLAY_ON)
                                                 (to_uint8 HT16K33_BLINK_OFF)));
                      EndTransmission;
                      BeginTransmission a;
                      WriteByte (to_uint8 (Z.lor HT16K33_CMD_DIMMING 15));
                      EndTransmission;
                      BeginTransmission a;
                      WriteByte (to_uint8 HT16K33_CMD_RAM)]
                  ++ replicate 16 (WriteByte 0) ++ [EndTransmission])
                 (rxBuffer (wire w)) (peripheral (wire w)))).
Proof.
  intros a.
  unfold init, resetOrientation, wakeUp, setBlink, setBrightness. cbv zeta.
  unfold bind at 1 2 3 4, modify, Wire_begin. rewrite emit_run.
  cbn [chip wire _i2c_addr _buffer _reversed _vFlipped _hFlipped set_buffer].
  unfold bind at 1. unfold bind at 1. unfold gets at 1.
  cbn [chip wire _i2c_addr _buffer _reversed _vFlipped _hFlipped].
  rewrite command_run.
  unfold bind at 1. unfold bind at 1. unfold gets at 1.
  cbn [chip wire _i2c_addr _buffer _reversed _vFlipped _hFlipped transmit].
  rewrite command_run.
  unfold bind at 1. unfold bind at 1. unfold gets at 1.
  cbn [chip wire _i2c_addr _buffer _reversed _vFlipped _hFlipped transmit].
  rewrite command_run.
  rewrite write_zero by done.
  unfold transmit, set_buffer, a.
  cbn [chip wire bus rxBuffer peripheral _i2c_addr _buffer _reversed _vFlipped _hFlipped].
  rewrite !to_uint8_idem, <- !app_assoc. reflexivity.
Qed.


(** X13. [setBrightness] keeps only the low 4 bits of the level: the byte
    sent is [DIMMING | (brightness mod 16)], so levels that differ by a
    multiple of 16 send the same command. *)
Theorem setBrightness_masks_level (brightness : Z) (w : World) :
  0 ≤ HT16K33_CMD_DIMMING < 256 →
  setBrightness brightness w =
  Some (tt, transmit [BeginTransmission (to_uint8 (_i2c_addr (chip w)));
                      WriteByte (Z.lor HT16K33_CMD_DIMMING (brightness mod 16));
                      EndTransmission] w) ∧
  setBrightness (brightness + 16) w = setBrightness brightness w.
Proof.
  intros HD.
  assert (Hrun : ∀ level,
    setBrightness level w =
    Some (tt, transmit [BeginTransmission (to_uint8 (_i2c_addr (chip w)));
                        WriteByte (Z.lor HT16K33_CMD_DIMMING (level mod 16));
                        EndTransmission] w)).
  { intros level. unfold setBrightness. cbv zeta. rewrite mask_0F.
    change (bind (gets _i2c_addr) ?k w) with (k (_i2c_addr (chip w)) w).
    cbv beta. rewrite command_run.
    pose proof (mod_16_range level).
    by rewrite to_uint8_lor, (to_uint8_small _ HD), (to_uint8_small (level mod 16)) by lia. }
  split; [apply Hrun |]. rewrite !Hrun.
  change (brightness + 16) with (brightness + 1 * 16). by rewrite Z.mod_add by lia.
Qed.

(** X14. [sleep] and [wakeUp] send the system-setup command with bit 0 (the
    oscillator) clear and set respectively, and agree with the command in
    every other bit. *)
Theorem sleep_wakeUp_toggle_oscillator_bit (w : World) :
  0 ≤ HT16K33_CMD_SYSTEM < 256 →
  ∃ off on,
    sleep w = Some (tt, transmit [BeginTransmission (to_uint8 (_i2c_addr (chip w)));
                                  WriteByte off; EndTransmission] w) ∧
    wakeUp w = Some (tt, transmit [BeginTransmission (to_uint8 (_i2c_addr (chip w)));
                                   WriteByte on; EndTransmission] w) ∧
    Z.testbit off 0 = false ∧
    Z.testbit on 0 = true ∧
    (∀ i, 0 < i →
       Z.testbit off i = Z.testbit HT16K33_CMD_SYSTEM i ∧
       Z.testbit on i = Z.testbit HT16K33_CMD_SYSTEM i).
Proof.
  intros HS.
  exists (to_uint8 (Z.land HT16K33_CMD_SYSTEM (Z.lnot 1))),
         (to_uint8 (Z.lor HT16K33_CMD_SYSTEM 0x01)).
  split; [| split; [| split; [| split]]].
  - unfold sleep.
    change (bind (gets _i2c_addr) ?k w) with (k (_i2c_addr (chip w)) w).
    cbv beta. by rewrite command_run.
  - unfold wakeUp.
    change (bind (gets _i2c_addr) ?k w) with (k (_i2c_addr (chip w)) w).
    cbv beta. by rewrite command_run.
  - rewrite to_uint8_testbit, Z.land_spec, Z.lnot_spec, testbit_1 by lia.
    cbn. by rewrite andb_false_r.
  - rewrite to_uint8_testbit, Z.lor_spec, testbit_1. cbn. by rewrite orb_true_r.
  - intros i Hi. destruct (Z.eqb_spec 0 i) as [| _]; [lia |].
    rewrite !to_uint8_testbit, Z.land_spec, Z.lor_spec, Z.lnot_spec, testbit_1 by lia.
    destruct (Z.eqb_spec 0 i) as [| _]; [lia |]. cbn.
    rewrite andb_true_r, orb_false_r.
    destruct (Z.ltb_spec i 8); [done |].
    by rewrite (uint8_testbit_high _ i HS) by lia.
Qed.

(** X15. [getKeyInterrupt] selects the interrupt-flag register, requests one
    byte and reports whether the byte it reads is nonzero; when the
    peripheral answers nothing, [read] yields -1 and the function reports
    [true]. *)
Theorem getKeyInterrupt_reads_one_byte
    (c : HT16K33) (log : list bus_event) (rx : list Z) :
  let a := to_uint8 (_i2c_addr c) in
  let asked := log ++ [BeginTransmission a; WriteByte (to_uint8 HT16K33_CMD_INTFLAG);
                       EndTransmission; RequestFrom a 1] in
  (∀ b rest,
     getKeyInterrupt (mkWorld c (mkTwoWire log rx (b :: rest))) =
     Some (negb (to_uint8 b =? 0), mkWorld c (mkTwoWire asked [] rest))) ∧
  getKeyInterrupt (mkWorld c (mkTwoWire log rx [])) =
  Some (true, mkWorld c (mkTwoWire asked [] [])).
Proof.
  intros a asked. split.
  - intros b rest. unfold getKeyInterrupt. run.
    repeat change (to_uint8 1) with 1. change (Z.to_nat 1) with 1%nat. cbn.
    rewrite take_0, drop_0, <- !app_assoc. cbn [app].
    pose proof (to_uint8_range b).
    by destruct (Z.ltb_spec 0 (to_uint8 b)), (Z.eqb_spec (to_uint8 b) 0); try lia.
  - unfold getKeyInterrupt. run.
    repeat change (to_uint8 1) with 1. change (Z.to_nat 1) with 1%nat. cbn.
    by rewrite <- !app_assoc.
Qed.

(** X16. [getKeyData] needs a caller array of at least two elements: it
    then assigns elements 0 and 1 and leaves everything after them
    untouched; given a shorter array it stores outside the array. *)
Theorem getKeyData_needs_two_elements (w : World) :
  (∀ o0 o1 tail, ∃ k0 k1 w',
     getKeyData (o0 :: o1 :: tail) w = Some (k0 :: k1 :: tail, w') ∧
     chip w' = chip w) ∧
  (∀ o0, getKeyData [o0] w = None) ∧
  getKeyData [] w = None.
Proof.
  destruct w as [c [log rx p]].
  split; [| split].
  - intros o0 o1 tail. unfold getKeyData. change (seqZ 0 2) with [0; 1].
    destruct p as [| b0 [| b1 [| b2 [| b3 p]]]]; run;
      repeat change (to_uint8 6) with 6; change (Z.to_nat 6) with 6%nat; cbn;
      store_steps; eauto.
  - intros o0. unfold getKeyData. change (seqZ 0 2) with [0; 1].
    destruct p as [| b0 [| b1 [| b2 [| b3 p]]]]; run;
      repeat change (to_uint8 6) with 6; change (Z.to_nat 6) with 6%nat; cbn;
      store_steps; by rewrite array_store_out by (cbn [length]; lia).
  - unfold getKeyData. change (seqZ 0 2) with [0; 1].
    destruct p as [| b0 [| b1 [| b2 [| b3 p]]]]; run;
      repeat change (to_uint8 6) with 6; change (Z.to_nat 6) with 6%nat; cbn;
      by rewrite array_store_out by (cbn [length]; lia).
Qed.

End Commands.

Lemma setBrightness_masks_level_witness :
  let w := mkWorld (mkHT16K33 0x70 (replicate 8 0) false false false)
                   (mkTwoWire [] [] []) in
  setBrightness (hdr := datasheet) 0x1F w =
  Some (tt, transmit [BeginTransmission 0x70; WriteByte 0xEF; EndTransmission] w) ∧
  setBrightness (hdr := datasheet) (0x1F + 16) w = setBrightness (hdr := datasheet) 0x1F w.
Proof.
  intros w. apply (setBrightness_masks_level (hdr := datasheet) 0x1F w). simpl. lia.
Defined.

Lemma sleep_wakeUp_toggle_oscillator_bit_witness :
  let w := mkWorld (mkHT16K33 0x70 (replicate 8 0) false false false)
                   (mkTwoWire [] [] []) in
  ∃ off on,
    sleep (hdr := datasheet) w =
      Some (tt, transmit [BeginTransmission (to_uint8 0x70); WriteByte off;
                          EndTransmission] w) ∧
    wakeUp (hdr := datasheet) w =
      Some (tt, transmit [BeginTransmission (to_uint8 0x70); WriteByte on;
                          EndTransmission] w) ∧
    Z.testbit off 0 = false ∧
    Z.testbit on 0 = true ∧
    (∀ i, 0 < i →
       Z.testbit off i = Z.testbit (HT16K33_CMD_SYSTEM (Header := datasheet)) i ∧
       Z.testbit on i = Z.testbit (HT16K33_CMD_SYSTEM (Header := datasheet)) i).
Proof.
  intros w. apply (sleep_wakeUp_toggle_oscillator_bit (hdr := datasheet) w). simpl. lia.
Defined.

(** ** Sprites, again *)

Lemma for_fold_ext {A} (l : list Z) (body1 body2 : Z → A → M A) a w :
  (∀ i a w, body1 i a w = body2 i a w) →
  for_fold l body1 a w = for_fold l body2 a w.
Proof.
  intros Hext. revert a w. induction l as [| i l IH]; intros a w; [done |].
  cbn [for_fold]. unfold bind. rewrite Hext.
  destruct (body2 i a w) as [[a' w'] |]; [apply IH | done].
Qed.

Lemma to_uint8_mod_8 x : to_uint8 x mod 8 = x mod 8.
Proof.
  rewrite <- (mask_07 (to_uint8 x)), <- (mask_07 x).
  by rewrite (to_uint8_small (to_uint8 x)) by apply to_uint8_range.
Qed.

Lemma land_7 x : Z.land x 0x07 = x mod 8.
Proof. change 0x07 with (Z.ones 3). by rewrite Z.land_ones by lia. Qed.

(** X17. Drawing is idempotent: on an allocated buffer, drawing the same
    sprite at the same offsets a second time changes nothing. *)
Theorem drawSprite16_twice_is_once
    (sprite : Sprite16) (colOffset rowOffset : Z) (w : World) :
  wf_buffer w → to_uint8 colOffset < 16 →
  ∃ w1,
    drawSprite16 sprite colOffset rowOffset w = Some (tt, w1) ∧
    drawSprite16 sprite colOffset rowOffset w1 = Some (tt, w1).
Proof.
  intros [Hlen Hwf] Hco.
  destruct (drawSprite16_inv sprite colOffset rowOffset w Hlen Hco)
    as (w1 & Hrun1 & b1 & -> & Hlen1 & Hwf1 & Hbits1).
  destruct (drawSprite16_inv sprite colOffset rowOffset (with_buffer b1 w) Hlen1 Hco)
    as (w2 & Hrun2 & b2 & -> & Hlen2 & Hwf2 & Hbits2).
  exists (with_buffer b1 w). split; [done |]. rewrite Hrun2.
  cbn [chip with_buffer set_buffer _buffer] in Hwf2, Hbits2.
  assert (Heq : b2 = b1); [| by rewrite Heq].
  apply (list_eq_same_length _ _ 8); [done | done |].
  intros i x y Hi Hx Hy. apply uint16_bits_eq.
  - specialize (Hwf2 (Hwf1 Hwf)). eapply Forall_lookup_1 in Hwf2; [apply Hwf2 | apply Hx].
  - specialize (Hwf1 Hwf). eapply Forall_lookup_1 in Hwf1; [apply Hwf1 | apply Hy].
  - intros c Hc.
    specialize (Hbits2 c (Z.of_nat i) Hc). specialize (Hbits1 c (Z.of_nat i) Hc).
    rewrite Nat2Z.id, (list_lookup_total_correct _ _ _ Hx),
      (list_lookup_total_correct _ _ _ Hy) in Hbits2.
    rewrite Nat2Z.id, (list_lookup_total_correct _ _ _ Hy) in Hbits1.
    rewrite Hbits2, Hbits1 by lia.
    by rewrite <- orb_assoc, orb_diag.
Qed.

Lemma drawSprite16_twice_is_once_witness :
  let sprite := mkSprite16 5 (λ r, 0x0F0F + r) in
  let w := mkWorld (mkHT16K33 0x70 [1; 2; 3; 4; 5; 6; 7; 8] false false false)
                   (mkTwoWire [] [] []) in
  ∃ w1,
    drawSprite16 sprite 3 6 w = Some (tt, w1) ∧
    drawSprite16 sprite 3 6 w1 = Some (tt, w1).
Proof.
  intros sprite w. apply (drawSprite16_twice_is_once sprite 3 6 w).
  - split; [reflexivity | repeat constructor; unfold is_uint16; lia].
  - reflexivity.
Defined.

(** X18. Sprites wrap around vertically: the row offset counts modulo 8
    only, in every state. *)
Theorem drawSprite16_rowOffset_wraps
    (sprite : Sprite16) (colOffset rowOffset : Z) (w : World) :
  drawSprite16 sprite colOffset rowOffset w =
  drawSprite16 sprite colOffset (rowOffset mod 8) w.
Proof.
  unfold drawSprite16, for_. cbv zeta. apply for_fold_ext.
  intros row [] w'.
  assert (Hrow : Z.land (row + to_uint8 rowOffset) 0x07
                 = Z.land (row + to_uint8 (rowOffset mod 8)) 0x07).
  { rewrite !land_7. pose proof (mod_8_range rowOffset).
    rewrite (to_uint8_small (rowOffset mod 8)) by lia.
    rewrite <- (Z.add_mod_idemp_r row (to_uint8 rowOffset)) by lia.
    rewrite <- (Z.add_mod_idemp_r row (rowOffset mod 8)) by lia.
    by rewrite to_uint8_mod_8, Z.mod_mod by lia. }
  by rewrite Hrow.
Qed.

(** ** Orientation toggles *)

(** X19. [reverse], [flipVertical] and [flipHorizontal] each undo
    themselves and commute with one another, and [resetOrientation] after
    any of them is [resetOrientation] alone. *)
Theorem orientation_toggles_compose (w : World) :
  (reverse ;; reverse) w = Some (tt, w) ∧
  (flipVertical ;; flipVertical) w = Some (tt, w) ∧
  (flipHorizontal ;; flipHorizontal) w = Some (tt, w) ∧
  (reverse ;; flipVertical) w = (flipVertical ;; reverse) w ∧
  (reverse ;; flipHorizontal) w = (flipHorizontal ;; reverse) w ∧
  (flipVertical ;; flipHorizontal) w = (flipHorizontal ;; flipVertical) w ∧
  (reverse ;; resetOrientation) w = resetOrientation w ∧
  (flipVertical ;; resetOrientation) w = resetOrientation w ∧
  (flipHorizontal ;; resetOrientation) w = resetOrientation w.
Proof.
  destruct w as [[a b r v h] t].
  unfold reverse, flipVertical, flipHorizontal, resetOrientation, bind, modify. cbn.
  by rewrite !negb_involutive.
Qed.

(** ** Rows outside the buffer *)

Lemma to_uint8_7_minus r : 8 ≤ r < 256 → to_uint8 (7 - r) = 263 - r.
Proof.
  intros Hr. unfold to_uint8.
  replace (7 - r) with (263 - r + (-1) * 256) by lia.
  rewrite Z.mod_add by lia. apply Z.mod_small. lia.
Qed.

(** X20. Unlike the pixel operations, [writeRow] does not coerce its
    argument: for a row that is 8 or more once cut to 8 bits, it reads
    outside the 8-word buffer, whether [_vFlipped] is set or not. *)
Theorem writeRow_row_out_of_range (row : Z) (w : World) :
  length (_buffer (chip w)) = 8%nat → 8 ≤ to_uint8 row →
  writeRow row w = None.
Proof.
  intros Hlen Hrow. pose proof (to_uint8_range row) as Hr.
  unfold writeRow. cbv zeta.
  unfold bind at 1, gets at 1. cbv beta iota.
  unfold bind at 1, read_buffer, bind at 1, gets at 1, lift. cbv beta iota.
  assert (Hload : array_load (_buffer (chip w))
                    (if _vFlipped (chip w) then to_uint8 (7 - to_uint8 row)
                     else to_uint8 row) = None).
  { rewrite to_uint8_7_minus by lia.
    rewrite array_load_run by (destruct (_vFlipped (chip w)); lia).
    apply lookup_ge_None_2. destruct (_vFlipped (chip w)); lia. }
  by rewrite Hload.
Qed.

Lemma writeRow_row_out_of_range_witness :
  writeRow 8 (mkWorld (mkHT16K33 0x70 (replicate 8 0) false true false)
                      (mkTwoWire [] [] [])) = None.
Proof. apply writeRow_row_out_of_range; [reflexivity | by vm_compute]. Defined.

(** ** The demo sketch *)

Section DemoProperties.
Context {hdr : Header}.

(** One key read with a full answer from the peripheral. *)
Lemma getKeyData_run
    (c : HT16K33) (log : list bus_event) (rx rest : list Z)
    (b0 b1 b2 b3 b4 b5 o0 o1 o2 : Z) :
  Forall (λ b, 0 ≤ b < 256) [b0; b1; b2; b3] →
  getKeyData [o0; o1; o2]
    (mkWorld c (mkTwoWire log rx (b0 :: b1 :: b2 :: b3 :: b4 :: b5 :: rest))) =
  Some ([b0 + 256 * b1; b2 + 256 * b3; o2],
        mkWorld c
          (mkTwoWire
             (log ++ [BeginTransmission (to_uint8 (_i2c_addr c));
                      WriteByte (to_uint8 HT16K33_CMD_KEYS);
                      EndTransmission;
                      RequestFrom (to_uint8 (_i2c_addr c)) 6])
             [b4; b5] rest)).
Proof.
  intros Hb.
  apply Forall_cons in Hb as [H0 Hb]. apply Forall_cons in Hb as [H1 Hb].
  apply Forall_cons in Hb as [H2 Hb]. apply Forall_cons in Hb as [H3 _].
  unfold getKeyData. change (seqZ 0 2) with [0; 1]. run.
  repeat change (to_uint8 6) with 6. change (Z.to_nat 6) with 6%nat. cbn.
  rewrite take_0, drop_0.
  store_steps.
  rewrite <- !app_assoc. cbn [app].
  by rewrite !word_of_bytes.
Qed.

Lemma report_row_run i key s :
  0 ≤ i → keybuffer s !! Z.to_nat i = Some key →
  report_row i s = Some (host_do (row_report i key) s).
Proof.
  intros Hi Hkey. unfold report_row, row_report.
  rewrite array_load_run, Hkey by done.
  destruct (key =? 0); cbn; [| done].
  destruct s as [m k f h]. unfold host_do. cbn. by rewrite app_nil_r.
Qed.

(** X21. One pass of the sketch's [loop].  With the flag clear it does
    nothing.  With the flag set it clears the flag, reads the key data
    once, and prints a line for row 0 and for row 1 when their word is not
    zero; the third row of the key buffer is neither filled nor printed,
    whatever the last two bytes of the answer are. *)
Theorem loop_reports_rows_0_and_1
    (c : HT16K33) (log : list bus_event) (rx rest : list Z)
    (b0 b1 b2 b3 b4 b5 o0 o1 o2 : Z) (h : list host_event) :
  Forall (λ b, 0 ≤ b < 256) [b0; b1; b2; b3] →
  let w := mkWorld c (mkTwoWire log rx (b0 :: b1 :: b2 :: b3 :: b4 :: b5 :: rest)) in
  let w' := mkWorld c
              (mkTwoWire
                 (log ++ [BeginTransmission (to_uint8 (_i2c_addr c));
                          WriteByte (to_uint8 HT16K33_CMD_KEYS);
                          EndTransmission;
                          RequestFrom (to_uint8 (_i2c_addr c)) 6])
                 [b4; b5] rest) in
  loop (mkSketch w [o0; o1; o2] false h) = Some (mkSketch w [o0; o1; o2] false h) ∧
  loop (mkSketch w [o0; o1; o2] true h) =
  Some (mkSketch w' [b0 + 256 * b1; b2 + 256 * b3; o2] false
          (h ++ row_report 0 (b0 + 256 * b1) ++ row_report 1 (b2 + 256 * b3))).
Proof.
  intros Hb w w'. split; [done |].
  unfold loop. cbn [has_key_data matrix keybuffer host].
  unfold w. rewrite getKeyData_run by done. fold w'.
  rewrite (report_row_run 0 (b0 + 256 * b1)) by (done || lia).
  rewrite (report_row_run 1 (b2 + 256 * b3)) by (done || lia).
  unfold host_do. cbn [matrix keybuffer has_key_data host].
  by rewrite <- app_assoc.
Qed.

(** X22. [setup] brings the chip up from any state: the host sees the
    serial port opened, the 10 ms delay and the interrupt attached to pin
    2; the bus sees [init]'s frames, a second wake-up command and the
    ROW/INT command with both low bits set; the key buffer is zeroed. *)
Theorem setup_brings_up (s : Sketch) :
  let t := wire (matrix s) in
  setup s =
  Some (mkSketch
          (mkWorld (mkHT16K33 0x70 (replicate 8 0) false false false)
             (mkTwoWire
                (bus t
                 ++ [WireBegin;
                     BeginTransmission 0x70;
                     WriteByte (to_uint8 (Z.lor HT16K33_CMD_SYSTEM 0x01));
                     EndTransmission;
                     BeginTransmission 0x70;
                     WriteByte (to_uint8 (Z.lor (Z.lor HT16K33_CMD_SETUP HT16K33_DISPLAY_ON)
                                                (to_uint8 HT16K33_BLINK_OFF)));
                     EndTransmission;
                     BeginTransmission 0x70;
                     WriteByte (to_uint8 (Z.lor HT16K33_CMD_DIMMING 15));
                     EndTransmission;
                     BeginTransmission 0x70;
                     WriteByte (to_uint8 HT16K33_CMD_RAM)]
                 ++ replicate 16 (WriteByte 0)
                 ++ [EndTransmission;
                     BeginTransmission 0x70;
                     WriteByte (to_uint8 (Z.lor HT16K33_CMD_SYSTEM 0x01));
                     EndTransmission;
                     BeginTransmission 0x70;
                     WriteByte (to_uint8 (Z.lor (Z.lor HT16K33_CMD_ROWINT 2) 1));
                     EndTransmission])
                (rxBuffer t) (peripheral t)))
          (replicate 3 0) (has_key_data s)
          (host s ++ [SerialBegin 115200; Delay 10; AttachInterrupt 2])).
Proof.
  intros t. unfold setup, on_matrix, host_do. cbv zeta.
  cbn [matrix keybuffer has_key_data host].
  rewrite init_run_full. cbv zeta.
  cbn [matrix keybuffer has_key_data host].
  unfold wakeUp at 1.
  change (bind (gets _i2c_addr) ?k ?w) with (k (_i2c_addr (chip w)) w).
  cbv beta. rewrite command_run.
  cbn [matrix keybuffer has_key_data host].
  unfold setRowIntPin.
  change (bind (gets _i2c_addr) ?k ?w) with (k (_i2c_addr (chip w)) w).
  cbv beta. rewrite command_run.
  unfold transmit.
  cbn [matrix keybuffer has_key_data host chip wire bus rxBuffer peripheral _i2c_addr].
  rewrite <- !app_assoc. reflexivity.
Qed.

End DemoProperties.

Lemma loop_reports_rows_0_and_1_witness :
  let c := mkHT16K33 0x70 (replicate 8 0) false false false in
  let w := mkWorld c (mkTwoWire [] [] [0x00; 0x00; 0x04; 0x10; 0xFF; 0x1F]) in
  loop (hdr := datasheet) (mkSketch w [0; 0; 0] true []) =
  Some (mkSketch
          (mkWorld c (mkTwoWire [BeginTransmission 0x70; WriteByte 0x40; EndTransmission;
                                 RequestFrom 0x70 6] [0xFF; 0x1F] []))
          [0; 0x1004; 0] false
          [SerialPrint "Key has been pressed in row "; SerialPrintInt 1;
           SerialPrint ": "; SerialPrintlnBin 0x1004]).
Proof.
  intros c w.
  apply (proj2 (loop_reports_rows_0_and_1 (hdr := datasheet)
                  c [] [] [] 0x00 0x00 0x04 0x10 0xFF 0x1F 0 0 0 []
                  ltac:(repeat constructor; lia))).
Defined.

(** ** From sprite to bus *)

Lemma plain_frame_data (addr : Z) (b : list Z) :
  length b = 8%nat →
  flat_map (row_bytes (mkHT16K33 addr b false false false)) (seqZ 0 8) =
  flat_map (λ word, [to_uint8 (Z.land word 0xFF); to_uint8 (Z.shiftr word 8)]) b.
Proof.
  intros Hlen.
  do 8 (destruct b as [| ? b]; [discriminate Hlen |]).
  destruct b; [| discriminate Hlen]. reflexivity.
Qed.

(** The rows a sprite of at most 8 rows leaves on a cleared buffer when it
    is drawn without offsets. *)
Lemma drawSprite16_0_on_cleared sprite w :
  _buffer (chip w) = replicate 8 0 →
  to_uint8 (height sprite) ≤ 8 →
  drawSprite16_0 sprite w =
  Some (tt, with_buffer
              ((λ j, if j <? to_uint8 (height sprite)
                     then Z.land (readRow sprite j) 0xFFFF else 0) <$> seqZ 0 8)
              w).
Proof.
  intros Hzero Hh. pose proof (to_uint8_range (height sprite)) as Hh0.
  assert (Hlen : length (_buffer (chip w)) = 8%nat) by by rewrite Hzero.
  unfold drawSprite16_0.
  destruct (drawSprite16_inv sprite 0 0 w Hlen eq_refl)
    as (w' & Hrun & b' & -> & Hlen' & Hwf & Hbits).
  change (to_uint8 0) with 0 in Hbits.
  rewrite Hrun. do 3 f_equal.
  assert (Hwf' : Forall is_uint16 b').
  { apply Hwf. rewrite Hzero. by repeat constructor. }
  apply (list_eq_same_length _ _ 8); [by rewrite length_fmap, length_seqZ | done |].
  intros i x y Hi Hx Hy.
  rewrite list_lookup_fmap, lookup_seqZ_lt in Hy by lia. cbn in Hy.
  injection Hy as <-. rewrite Z.add_0_l.
  assert (Hbit : ∀ c, 0 ≤ c < 16 →
            Z.testbit x c =
            (Z.of_nat i <? to_uint8 (height sprite))
            && Z.testbit (Z.land (readRow sprite (Z.of_nat i)) 0xFFFF) c).
  { intros c Hc. specialize (Hbits c (Z.of_nat i) Hc).
    rewrite Nat2Z.id, (list_lookup_total_correct _ _ _ Hx), Hzero in Hbits.
    rewrite lookup_total_replicate_2, Z.bits_0 in Hbits by lia.
    rewrite Hbits by lia. cbn. apply sprite_lights_no_offset; lia. }
  apply uint16_bits_eq.
  - eapply Forall_lookup_1 in Hwf'; [apply Hwf' | apply Hx].
  - destruct (Z.of_nat i <? to_uint8 (height sprite)); [| done].
    rewrite land_FFFF. apply to_uint16_range.
  - intros c Hc. rewrite Hbit by done.
    destruct (Z.of_nat i <? to_uint8 (height sprite)); [done |]. by rewrite Z.bits_0.
Qed.

Section SpriteToBus.
Context {hdr : Header}.

(** X23. Clearing, drawing a sprite of at most 8 rows with the offset-free
    overload and writing, with no orientation flag set, sends the sprite:
    the 16 data bytes of the frame, decoded low byte first, are the sprite
    rows cut to 16 bits, followed by zero rows below the sprite. *)
Theorem clear_draw_write_sends_sprite
    (sprite : Sprite16) (addr : Z) (b : list Z) (t : TwoWire) :
  length b = 8%nat → to_uint8 (height sprite) ≤ 8 →
  let w := mkWorld (mkHT16K33 addr b false false false) t in
  let rows := (λ j, if j <? to_uint8 (height sprite)
                    then Z.land (readRow sprite j) 0xFFFF else 0) <$> seqZ 0 8 in
  ∃ data,
    (clear ;; drawSprite16_0 sprite ;; write) w =
    Some (tt, transmit ([BeginTransmission (to_uint8 addr);
                         WriteByte (to_uint8 HT16K33_CMD_RAM)]
                        ++ (WriteByte <$> data) ++ [EndTransmission])
                (with_buffer rows w)) ∧
    decode_le data = rows.
Proof.
  intros Hlen Hh w rows.
  assert (Hrows_len : length rows = 8%nat) by (unfold rows; by rewrite length_fmap, length_seqZ).
  assert (Hrows_wf : Forall is_uint16 rows).
  { unfold rows. apply Forall_fmap, Forall_forall. intros j _. cbn.
    destruct (j <? to_uint8 (height sprite)); [| done].
    rewrite land_FFFF. apply to_uint16_range. }
  exists (flat_map (row_bytes (chip (with_buffer rows w))) (seqZ 0 8)). split.
  - rewrite (bind_run _ _ _ _ _ (clear_run w Hlen)).
    rewrite (bind_run _ _ _ _ _
               (drawSprite16_0_on_cleared sprite (with_buffer (replicate 8 0) w) eq_refl Hh)).
    fold rows. change (with_buffer rows (with_buffer (replicate 8 0) w))
      with (with_buffer rows w).
    by rewrite write_data.
  - unfold w, with_buffer, set_buffer.
    cbn [chip _i2c_addr _reversed _vFlipped _hFlipped].
    rewrite plain_frame_data by done. by apply decode_le_plain_rows.
Qed.

(** X24. When the peripheral answers nothing, every [read] yields -1 and
    [getKeyData] fills both rows with 0xFFFF: every key reads as pressed. *)
Theorem getKeyData_without_answer
    (c : HT16K33) (log : list bus_event) (rx : list Z) (o0 o1 o2 : Z) :
  getKeyData [o0; o1; o2] (mkWorld c (mkTwoWire log rx [])) =
  Some ([0xFFFF; 0xFFFF; o2],
        mkWorld c
          (mkTwoWire
             (log ++ [BeginTransmission (to_uint8 (_i2c_addr c));
                      WriteByte (to_uint8 HT16K33_CMD_KEYS);
                      EndTransmission;
                      RequestFrom (to_uint8 (_i2c_addr c)) 6])
             [] [])).
Proof.
  unfold getKeyData. change (seqZ 0 2) with [0; 1]. run.
  repeat change (to_uint8 6) with 6. change (Z.to_nat 6) with 6%nat. cbn.
  store_steps.
  by rewrite <- !app_assoc.
Qed.

End SpriteToBus.

Lemma clear_draw_write_sends_sprite_witness :
  let sprite := mkSprite16 3 (λ r, 0x0180 + r) in
  let w := mkWorld (mkHT16K33 0x70 [9; 9; 9; 9; 9; 9; 9; 9] false false false)
                   (mkTwoWire [] [] []) in
  let rows := (λ j, if j <? to_uint8 (height sprite)
                    then Z.land (readRow sprite j) 0xFFFF else 0) <$> seqZ 0 8 in
  ∃ data,
    (clear ;; drawSprite16_0 sprite ;; write (hdr := datasheet)) w =
    Some (tt, transmit ([BeginTransmission (to_uint8 0x70);
                         WriteByte (to_uint8 (HT16K33_CMD_RAM (Header := datasheet)))]
                        ++ (WriteByte <$> data) ++ [EndTransmission])
                (with_buffer rows w)) ∧
    decode_le data = rows.
Proof.
  intros sprite w rows.
  apply (clear_draw_write_sends_sprite (hdr := datasheet) sprite 0x70
           [9; 9; 9; 9; 9; 9; 9; 9] (mkTwoWire [] [] [])).
  - reflexivity.
  - by vm_compute.
Defined.
